(** * morerss.zhihu_stream: activity stream to RSS

    A shallow embedding of [src/morerss/zhihu_stream.py] and the
    properties of its pagination walker, item normaliser and request
    handlers.

    Conventions.
    - Python [str] and [bytes] are [string] (sequences of bytes, text in
      UTF-8).  Every pattern the module searches for is ASCII, and an ASCII
      byte never occurs inside a multi-byte UTF-8 sequence, so searching
      and replacing on bytes agrees with Python's code-point semantics.
    - Decoded JSON and the few Python constants the module passes around
      ([None], [False]) share the type [value].  Numbers are integers:
      identifiers and epoch seconds are the only numbers the module reads.
    - A raised exception is [Err e]; functions that can raise return
      [result].  Functions that also talk to the outside (HTTP, logging)
      live in the monad [M] over [World]. *)

From Stdlib Require Import String Ascii List ZArith Lia Bool Arith.
From Stdlib Require Import DecimalString.
Import ListNotations.
Local Open Scope list_scope.
Local Open Scope string_scope.

(* ===================================================================== *)
(** ** Python strings *)
(* ===================================================================== *)

Module PyStr.

(** The characters that cannot be written inside a string literal. *)
Definition dquote : string := String "034"%char EmptyString.
Definition backspace : string := String "008"%char EmptyString.

(** [s.startswith(p)] *)
Definition startswith (s p : string) : bool := String.prefix p s.

(** [s.endswith(suf)]: some tail of [s] is [suf]. *)
Fixpoint endswith (s suf : string) : bool :=
  if String.eqb s suf then true
  else match s with
       | EmptyString => false
       | String _ s' => endswith s' suf
       end.

(** [sub in s] for two strings: [sub] occurs somewhere in [s]. *)
Fixpoint contains (sub s : string) : bool :=
  if String.prefix sub s then true
  else match s with
       | EmptyString => false
       | String _ s' => contains sub s'
       end.

(** [s[n:]] *)
Fixpoint drop (n : nat) (s : string) : string :=
  match n, s with
  | O, _ => s
  | S n', String _ s' => drop n' s'
  | S _, EmptyString => EmptyString
  end.

(** [s.replace(old, new)] for a non-empty [old] (every call site passes a
    non-empty literal): scan from the left; at an occurrence of [old] emit
    [new] and resume after the occurrence, otherwise copy one character.
    [skip] counts the characters of the current occurrence still to be
    passed over. *)
Fixpoint replace_from (skip : nat) (old new s : string) : string :=
  match s with
  | EmptyString => EmptyString
  | String c s' =>
      match skip with
      | S k => replace_from k old new s'
      | O =>
          if String.prefix old s
          then new ++ replace_from (String.length old - 1) old new s'
          else String c (replace_from O old new s')
      end
  end.

Definition replace (s old new : string) : string := replace_from O old new s.

(** [str(n)] for an integer. *)
Definition of_Z (n : Z) : string := NilZero.string_of_int (Z.to_int n).

End PyStr.

(* ===================================================================== *)
(** ** Python values and exceptions *)
(* ===================================================================== *)

Local Set Warnings "-register-all".

(** [None], booleans, integers, strings, lists and dicts.  A dict is
    the list of its bindings; a key is looked up from the front. *)
Inductive value : Type :=
| VNone
| VBool (b : bool)
| VInt (n : Z)
| VStr (s : string)
| VList (l : list value)
| VDict (d : list (string * value)).

Inductive exn : Type :=
| KeyError (key : string)
| TypeError
| IndexError
| AttributeError
| UnboundLocalError (var : string)
| HTTPError (code : Z)
| Raised (what : string).   (* raised inside a collaborator *)

Inductive result (A : Type) : Type :=
| Ok (a : A)
| Err (e : exn).
Arguments Ok {A} a.
Arguments Err {A} e.

Definition rbind {A B} (r : result A) (k : A -> result B) : result B :=
  match r with
  | Ok a => k a
  | Err e => Err e
  end.

Declare Scope result_scope.
Delimit Scope result_scope with result.
Notation "x <~ r ;; k" := (rbind r (fun x => k))
  (at level 61, r at next level, right associativity) : result_scope.

Module Py.

(** First binding of [k] in a dict. *)
Fixpoint lookup (k : string) (d : list (string * value)) : option value :=
  match d with
  | [] => None
  | (k', v) :: d' => if String.eqb k' k then Some v else lookup k d'
  end.

(** [v[k]] with a string key: only a dict can be subscripted by one. *)
Definition getitem (v : value) (k : string) : result value :=
  match v with
  | VDict d =>
      match lookup k d with
      | Some x => Ok x
      | None => Err (KeyError k)
      end
  | _ => Err TypeError
  end.

(** [k in v] and [v.get(k)], used on a value that was already subscripted
    by a string key, hence on a dict. *)
Definition has_key (v : value) (k : string) : bool :=
  match v with
  | VDict d => match lookup k d with Some _ => true | None => false end
  | _ => false
  end.

Definition get (v : value) (k : string) : value :=
  match v with
  | VDict d => match lookup k d with Some x => x | None => VNone end
  | _ => VNone
  end.

(** [v == s] for a string literal [s]. *)
Definition eq_str (v : value) (s : string) : bool :=
  match v with
  | VStr t => String.eqb t s
  | _ => false
  end.

(** [v in [s1, s2, ...]] and [v in (s1, s2, ...)]: membership by [==]. *)
Definition in_strs (v : value) (l : list string) : bool :=
  existsb (eq_str v) l.

(** Truth value, as tested by [if v:]. *)
Definition truthy (v : value) : bool :=
  match v with
  | VNone => false
  | VBool b => b
  | VInt n => negb (Z.eqb n 0)
  | VStr s => negb (String.eqb s "")
  | VList l => match l with [] => false | _ => true end
  | VDict d => match d with [] => false | _ => true end
  end.

(** The characters of a string, as one-character strings. *)
Fixpoint chars (s : string) : list value :=
  match s with
  | EmptyString => []
  | String c s' => VStr (String c EmptyString) :: chars s'
  end.

(** [for x in v]: a list yields its elements, a dict its keys, a string
    its characters; nothing else is iterable. *)
Definition iter (v : value) : result (list value) :=
  match v with
  | VList l => Ok l
  | VDict d => Ok (map (fun kv => VStr (fst kv)) d)
  | VStr s => Ok (chars s)
  | _ => Err TypeError
  end.

End Py.

(* ===================================================================== *)
(** ** The outside world *)
(* ===================================================================== *)

(** One HTTP request issued through [zhihulib.fetch_zhihu]. *)
Record Request : Type := mkRequest {
  req_url : string;
  req_headers : list (string * string)
}.

(** What a request has done so far: the HTTP exchanges in the order they
    happened (request and the body or exception it produced) and the
    warnings written to the module's logger. *)
Record World : Type := mkWorld {
  exchanges : list (Request * result string);
  warnings : list string
}.

Definition M (A : Type) : Type := World -> result A * World.

Definition ret {A} (a : A) : M A := fun w => (Ok a, w).
Definition raise {A} (e : exn) : M A := fun w => (Err e, w).
Definition lift {A} (r : result A) : M A := fun w => (r, w).
Definition bind {A B} (m : M A) (k : A -> M B) : M B :=
  fun w =>
    match m w with
    | (Ok a, w') => k a w'
    | (Err e, w') => (Err e, w')
    end.

Declare Scope py_scope.
Delimit Scope py_scope with py.
Notation "x <- m ;; k" := (bind m (fun x => k))
  (at level 61, m at next level, right associativity) : py_scope.
Notation "m ;;; k" := (bind m (fun _ => k))
  (at level 61, right associativity) : py_scope.
Local Open Scope py_scope.

(** [logger.warn(msg)] *)
Definition logger_warn (msg : string) : M unit :=
  fun w => (Ok tt, mkWorld (exchanges w) (warnings w ++ [msg])%list).

(** PyRSS2Gen.RSSItem, with the keyword arguments [post2rss] passes. *)
Record RSSItem (datetime : Type) : Type := mkRSSItem {
  title : string;
  link : string;
  guid : string;
  description : string;
  pubDate : datetime;
  author : value
}.
Arguments mkRSSItem {datetime}.
Arguments title {datetime}.
Arguments link {datetime}.
Arguments guid {datetime}.
Arguments description {datetime}.
Arguments pubDate {datetime}.
Arguments author {datetime}.

(** The [info] dict handed to [base.data2rss]. *)
Record ChannelInfo : Type := mkInfo {
  info_title : string;
  info_description : string
}.

(** The feed object [base.data2rss] returns. *)
Record RSS2 (datetime : Type) : Type := mkRSS2 {
  rss_title : string;
  rss_link : string;
  rss_description : string;
  rss_items : list (RSSItem datetime)
}.
Arguments mkRSS2 {datetime}.
Arguments rss_title {datetime}.
Arguments rss_link {datetime}.
Arguments rss_description {datetime}.
Arguments rss_items {datetime}.

(** Everything the module imports and does not define: the transport, the
    clock, the JSON and HTML libraries, [zhihulib], [base], PyRSS2Gen and
    tornado's request handler.  In-place updates of an lxml tree are
    functions returning the updated tree. *)
Class Env : Type := {
  (* zhihulib.fetch_zhihu: outcome of the n-th request of this run *)
  upstream : nat -> Request -> result string;
  (* int(time.time()) after n requests *)
  clock : nat -> Z;
  (* urllib.parse *)
  urljoin : string -> value -> string;
  quote : string -> string;
  (* json *)
  json_dumps : value -> string;
  json_loads : string -> result value;
  decode_utf8 : string -> result string;
  (* str() of a list or dict *)
  py_repr : value -> string;
  (* lxml.html *)
  html : Type;
  fromstring : string -> result html;
  tostring : html -> string;
  xpath : html -> string -> list html;
  text_content : html -> string;
  attr_get : html -> string -> value;
  (* zhihulib.tidy_content, and base.proxify_pic with re_zhihu_img *)
  tidy_content : html -> result html;
  proxify_pic : html -> value -> result html;
  (* datetime.datetime.utcfromtimestamp *)
  datetime : Type;
  utcfromtimestamp : value -> result datetime;
  (* base.data2rss and RSS2.to_xml(encoding='utf-8') *)
  data2rss : string -> ChannelInfo -> list value ->
             (value -> M (option (RSSItem datetime))) -> M (RSS2 datetime);
  to_xml : RSS2 datetime -> string;
  (* base.BaseHandler (tornado.web.RequestHandler) *)
  handler : Type;
  get_argument : handler -> string -> value -> value
}.

(* ===================================================================== *)
(** ** The module *)
(* ===================================================================== *)

Import PyStr.

(** [extra_types] of [post2rss]: the default [()] is a tuple, while
    [topic2rss] passes [('question')], which is the string ['question']. *)
Inductive extra_types_arg : Type :=
| ETuple (l : list string)
| EStr (s : string).

(** ['question' in extra_types] *)
Definition in_extra (k : string) (e : extra_types_arg) : bool :=
  match e with
  | ETuple l => existsb (String.eqb k) l
  | EStr s => contains k s
  end.

Definition ACCEPT_VERBS : list string := ["MEMBER_CREATE_ARTICLE"; "ANSWER_CREATE"].

Definition baseurl : string := "https://www.zhihu.com/api/v4/".
Definition user_agent : string :=
  "Mozilla/5.0 (X11; Linux x86_64; rv:63.0) Gecko/20100101 Firefox/63.0".

(** [urlencode(query)] of the fixed query dict: none of its characters
    needs quoting. *)
Definition query_string (now : Z) : string :=
  "desktop=True&after_id=" ++ of_Z now ++ "&limit=7".

(** [xs[0]] *)
Definition first {A} (xs : list A) : result A :=
  match xs with
  | x :: _ => Ok x
  | [] => Err IndexError
  end.

(** [post_content(post, digest)] *)
Definition post_content (post : value) (digest : bool) : result value :=
  (ty <~ Py.getitem post "type" ;;
   if Py.eq_str ty "question" then Py.getitem post "title"
   else if digest then Py.getitem post "excerpt"
   else if negb (Py.has_key post "content") then Py.getitem post "excerpt"
   else Py.getitem post "content")%result.

(** [content.replace('<code ', '<pre><code ')] followed by
    [content.replace('</code>', '</code></pre>')], lines 225-226 of
    [post2rss]. *)
Definition wrap_code (content : string) : string :=
  replace (replace content "<code " "<pre><code ") "</code>" "</code></pre>".

(** [[x['target'] for x in xs if x['verb'] in ACCEPT_VERBS]] *)
Fixpoint accepted_targets (xs : list value) : result (list value) :=
  match xs with
  | [] => Ok []
  | x :: rest =>
      (verb <~ Py.getitem x "verb" ;;
       if Py.in_strs verb ACCEPT_VERBS
       then (t <~ Py.getitem x "target" ;;
             ts <~ accepted_targets rest ;;
             Ok (t :: ts))
       else accepted_targets rest)%result
  end.

(** [[x['target'] for x in xs]] *)
Fixpoint all_targets (xs : list value) : result (list value) :=
  match xs with
  | [] => Ok []
  | x :: rest =>
      (t <~ Py.getitem x "target" ;;
       ts <~ all_targets rest ;;
       Ok (t :: ts))%result
  end.

(** The comprehension over [data['data']] in [activities2rss] and in
    [topic2rss]. *)
Definition user_page_posts (data : value) : result (list value) :=
  (d <~ Py.getitem data "data" ;; xs <~ Py.iter d ;; accepted_targets xs)%result.

Definition topic_page_posts (data : value) : result (list value) :=
  (d <~ Py.getitem data "data" ;; xs <~ Py.iter d ;; all_targets xs)%result.

Section Collaborators.

Context {E : Env}.

Definition fetch_zhihu (req : Request) : M string :=
  fun w =>
    let r := upstream (List.length (exchanges w)) req in
    (r, mkWorld (exchanges w ++ [(req, r)])%list (warnings w)).

(** [int(time.time())] *)
Definition time_time : M Z :=
  fun w => (Ok (clock (List.length (exchanges w))), w).

(** [str(v)], as produced by the [%s] conversion. *)
Definition py_str (v : value) : string :=
  match v with
  | VStr s => s
  | VNone => "None"
  | VBool true => "True"
  | VBool false => "False"
  | VInt n => of_Z n
  | _ => py_repr v
  end.

End Collaborators.

Module ZhihuAPI.
Section API.

Context {E : Env}.

Definition get_json (url : value) : M value :=
  let url := urljoin baseurl url in
  let headers :=
    [("User-Agent", user_agent);
     ("Authorization", "oauth c3cef7c66a1843f8b3a9e6a1e3160e20");
     ("x-api-version", "3.0.40");
     ("x-udid", "AMAiMrPqqQ2PTnOxAr5M71LCh-dIQ8kkYvw=")] in
  body <- fetch_zhihu (mkRequest url headers) ;;
  text <- lift (decode_utf8 body) ;;
  lift (json_loads text).

Definition activities (name : string) : M value :=
  let url := "members/" ++ name ++ "/activities" in
  now <- time_time ;;
  get_json (VStr (url ++ "?" ++ query_string now)).

Definition topic (id : string) (sort : value) : M value :=
  let url :=
    if Py.eq_str sort "hot" then "topics/" ++ id ++ "/feeds/top_activity"
    else if Py.eq_str sort "newest" then "topics/" ++ id ++ "/feeds/timeline_activity"
    else "" in
  now <- time_time ;;
  get_json (VStr (url ++ "?" ++ query_string now)).

(** The dict [card] returns. *)
Record Card : Type := mkCard {
  card_name : string;
  card_headline : string;
  card_url : string
}.

(** The request [card] issues. *)
Definition card_request (name : string) : Request :=
  let url := "https://www.zhihu.com/node/MemberProfileCardV2?params=" ++
             quote (json_dumps (VDict [("url_token", VStr name)])) in
  mkRequest url [("User-Agent", user_agent)].

Definition card (name : string) : M Card :=
  body <- fetch_zhihu (card_request name) ;;
  if String.eqb body "" then raise (HTTPError 404)
  else
    text <- lift (decode_utf8 body) ;;
    doc <- lift (fromstring text) ;;
    n <- lift (first (xpath doc ("//span[@class=" ++ dquote ++ "name" ++ dquote ++ "]"))) ;;
    a <- lift (first (xpath doc ("//a[@class=" ++ dquote ++ "avatar-link" ++ dquote ++ "]"))) ;;
    let tagline := xpath doc ("//div[@class=" ++ dquote ++ "tagline" ++ dquote ++ "]") in
    let headline :=
      match tagline with
      | t :: _ => text_content t
      | [] => ""
      end in
    ret (mkCard (text_content n) headline
                (urljoin "https://www.zhihu.com/" (attr_get a "href"))).

(** The dict [topic_info] returns. *)
Record TopicInfo : Type := mkTopicInfo {
  topic_name : string;
  topic_description : string;
  topic_url : string
}.

Definition topic_info (id : string) : M TopicInfo :=
  let url := urljoin "https://www.zhihu.com/topic/" (VStr id) in
  body <- fetch_zhihu (mkRequest url [("User-Agent", user_agent)]) ;;
  if String.eqb body "" then raise (HTTPError 404)
  else
    text <- lift (decode_utf8 body) ;;
    doc <- lift (fromstring text) ;;
    match xpath doc ("//*[contains(@class, " ++ dquote ++ "TopicMetaCard" ++ dquote ++ ")]") with
    | _ :: _ =>
        n <- lift (first (xpath doc ("//div[@class=" ++ dquote ++ "TopicMetaCard-title" ++ dquote ++ "]"))) ;;
        d <- lift (first (xpath doc ("//div[contains(@class, " ++ dquote ++ "TopicMetaCard-description" ++ dquote ++ ")]"))) ;;
        ret (mkTopicInfo (text_content n) (text_content d) url)
    | [] =>
        match xpath doc ("//*[contains(@class, " ++ dquote ++ "TopicCard" ++ dquote ++ ")]") with
        | _ :: _ =>
            n <- lift (first (xpath doc ("//h1[@class=" ++ dquote ++ "TopicCard-titleText" ++ dquote ++ "]"))) ;;
            d <- lift (first (xpath doc ("//div[@class=" ++ dquote ++ "TopicCard-ztext" ++ dquote ++ "]"))) ;;
            ret (mkTopicInfo (text_content n) (text_content d) url)
        | [] => ret (mkTopicInfo id "未找到话题描述" url)
        end
    end.

End API.
End ZhihuAPI.

Section Stream.

Context {E : Env}.

Local Abbreviation Item := (RSSItem datetime).

(** Lines 232-236 of [post2rss]: parse, tidy, optionally proxy the
    pictures, serialise. *)
Definition render (content : string) (pic : value) : result string :=
  (doc <~ fromstring content ;;
   doc <~ tidy_content doc ;;
   doc <~ (if Py.truthy pic then proxify_pic doc pic else Ok doc) ;;
   Ok (tostring doc))%result.

(** Lines 224-248 of [post2rss], once the kind has fixed [title], [url],
    [t_c] and [author]. *)
Definition post2rss_item (post : value) (digest : bool) (pic : value)
    (title url : string) (t_c author : value) : result (option Item) :=
  (content <~ post_content post digest ;;
   match content with
   | VStr content =>
       let content := wrap_code content in
       let content :=
         if String.eqb content ""
         then "<img src=" ++ dquote ++ py_str (Py.get post "thumbnail") ++ dquote ++ ">"
         else content in
       content <~ render content pic ;;
       pub_date <~ utcfromtimestamp t_c ;;
       Ok (Some (mkRSSItem (replace title backspace "") url url
                           (replace content backspace "") pub_date author))
   | _ => Err AttributeError      (* no [replace] method *)
   end)%result.

Definition post2rss (post : value) (digest : bool) (pic : value)
    (extra_types : extra_types_arg) : M (option Item) :=
  ty <- lift (Py.getitem post "type") ;;
  if Py.eq_str ty "answer" then
    lift (q <~ Py.getitem post "question" ;;
          qtitle <~ Py.getitem q "title" ;;
          let title := "[回答] " ++ py_str qtitle in
          qid <~ Py.getitem q "id" ;;
          id <~ Py.getitem post "id" ;;
          let url := "https://www.zhihu.com/question/" ++ py_str qid ++
                     "/answer/" ++ py_str id in
          t_c <~ Py.getitem post "created_time" ;;
          a <~ Py.getitem post "author" ;;
          author <~ Py.getitem a "name" ;;
          post2rss_item post digest pic title url t_c author)%result
  else if Py.eq_str ty "article" then
    lift (t <~ Py.getitem post "title" ;;
          let title := "[文章] " ++ py_str t in
          id <~ Py.getitem post "id" ;;
          let url := "https://zhuanlan.zhihu.com/p/" ++ py_str id in
          t_c <~ Py.getitem post "created" ;;
          a <~ Py.getitem post "author" ;;
          author <~ Py.getitem a "name" ;;
          post2rss_item post digest pic title url t_c author)%result
  else if in_extra "question" extra_types && Py.eq_str ty "question" then
    lift (t <~ Py.getitem post "title" ;;
          let title := "[问题] " ++ py_str t in
          id <~ Py.getitem post "id" ;;
          let url := "https://www.zhihu.com/question/" ++ py_str id in
          t_c <~ Py.getitem post "created" ;;
          post2rss_item post digest pic title url t_c VNone)%result
  else if Py.in_strs ty ["roundtable"; "live"; "column"] then
    ret None
  else
    logger_warn ("unknown type: " ++ py_str ty) ;;;
    ret None.

(** The state of the pagination loops: [posts], [page] and the last page
    fetched, [data]. *)
Definition LoopState : Type := (list value * nat * value)%type.

(** The [while] loop of [activities2rss].  [fuel] bounds the number of
    iterations of the model; [None] means the bound was hit before the
    loop left, which [stream_posts_terminates] rules out. *)
Fixpoint activities_loop (fuel : nat) (posts : list value) (page : nat)
    (data : value) : M (option LoopState) :=
  if (List.length posts <? 20)%nat && (page <? 3)%nat then
    match fuel with
    | O => ret None
    | S fuel' =>
        paging <- lift (Py.getitem data "paging") ;;
        is_end <- lift (Py.getitem paging "is_end") ;;
        if Py.truthy is_end then ret (Some (posts, page, data))
        else
          next <- lift (Py.getitem paging "next") ;;
          data' <- ZhihuAPI.get_json next ;;
          more <- lift (user_page_posts data') ;;
          activities_loop fuel' (posts ++ more)%list (page + 1)%nat data'
    end
  else ret (Some (posts, page, data)).

(** Lines 145-160 of [activities2rss]. *)
Definition activities_posts (name : string) : M (option LoopState) :=
  data <- ZhihuAPI.activities name ;;
  posts <- lift (user_page_posts data) ;;
  activities_loop 3 posts 0 data.

Definition activities2rss (name : string) (digest : bool) (pic : value) : M string :=
  card <- ZhihuAPI.card name ;;
  let url := ZhihuAPI.card_url card in
  let info := mkInfo (ZhihuAPI.card_name card ++ " - 知乎动态")
                     (ZhihuAPI.card_headline card) in
  st <- activities_posts name ;;
  match st with
  | Some (posts, _, _) =>
      rss <- data2rss url info posts
               (fun post => post2rss post digest pic (ETuple [])) ;;
      ret (to_xml rss)
  | None => raise (Raised "iteration bound")
  end.

(** [next_url] of [topic2rss], with its scheme upgraded. *)
Definition https_next (next : value) : result value :=
  match next with
  | VStr next_url =>
      if startswith next_url "http://"
      then Ok (VStr ("https://" ++ drop (String.length "http://") next_url))
      else Ok (VStr next_url)
  | _ => Err AttributeError       (* no [startswith] method *)
  end.

(** The [while] loop of [topic2rss]. *)
Fixpoint topic_loop (fuel : nat) (posts : list value) (page : nat)
    (data : value) : M (option LoopState) :=
  if (List.length posts <? 20)%nat && (page <? 3)%nat then
    match fuel with
    | O => ret None
    | S fuel' =>
        paging <- lift (Py.getitem data "paging") ;;
        is_end <- lift (Py.getitem paging "is_end") ;;
        if Py.truthy is_end then ret (Some (posts, page, data))
        else
          next <- lift (Py.getitem paging "next") ;;
          next_url <- lift (https_next next) ;;
          data' <- ZhihuAPI.get_json next_url ;;
          more <- lift (topic_page_posts data') ;;
          topic_loop fuel' (posts ++ more)%list (page + 1)%nat data'
    end
  else ret (Some (posts, page, data)).

(** Lines 263-279 of [topic2rss]. *)
Definition topic_posts (id : string) (sort : value) : M (option LoopState) :=
  data <- ZhihuAPI.topic id sort ;;
  posts <- lift (topic_page_posts data) ;;
  topic_loop 3 posts 0 data.

Definition topic2rss (id : string) (sort : value) (pic : value) : M string :=
  info <- ZhihuAPI.topic_info id ;;
  let url := ZhihuAPI.topic_url info in
  let title :=
    if Py.eq_str sort "hot"
    then Some (ZhihuAPI.topic_name info ++ " - 知乎话题 - 热门排序 ")
    else if Py.eq_str sort "newest"
    then Some (ZhihuAPI.topic_name info ++ " - 知乎话题 - 时间排序 ")
    else None in
  match title with
  | None => raise (UnboundLocalError "title")
  | Some title =>
      let info := mkInfo title (ZhihuAPI.topic_description info) in
      st <- topic_posts id sort ;;
      match st with
      | Some (posts, _, _) =>
          rss <- data2rss url info posts
                   (fun post => post2rss post false pic (EStr "question")) ;;
          ret (to_xml rss)
      | None => raise (Raised "iteration bound")
      end
  end.

(** [ZhihuStream.get]; the value returned is what [self.finish] sends. *)
Definition ZhihuStream_get (self : handler) (name : string) : M string :=
  if endswith name " " then raise (HTTPError 404)
  else
    let pic := get_argument self "pic" VNone in
    let digest := Py.eq_str (get_argument self "digest" (VBool false)) "true" in
    activities2rss name digest pic.

(** [ZhihuTopic.get] *)
Definition ZhihuTopic_get (self : handler) (id : string) : M string :=
  if endswith id " " then raise (HTTPError 404)
  else
    let sort := get_argument self "sort" VNone in
    let sort := if negb (Py.in_strs sort ["newest"; "hot"]) then VStr "hot" else sort in
    let pic := get_argument self "pic" VNone in
    topic2rss id sort pic.

End Stream.

(* ===================================================================== *)
(** ** Reasoning in the monad *)
(* ===================================================================== *)

Section MonadLemmas.

Context {A B : Type}.

Lemma bind_Ok (m : M A) (k : A -> M B) w b w' :
  bind m k w = (Ok b, w') ->
  exists a w1, m w = (Ok a, w1) /\ k a w1 = (Ok b, w').
Proof.
  unfold bind. destruct (m w) as [[a | e] w1]; intros H.
  - exists a, w1. split; [reflexivity | exact H].
  - discriminate H.
Qed.

Lemma bind_run (m : M A) (k : A -> M B) w a w1 :
  m w = (Ok a, w1) -> bind m k w = k a w1.
Proof. intros H. unfold bind. rewrite H. reflexivity. Qed.

Lemma bind_fail (m : M A) (k : A -> M B) w e w1 :
  m w = (Err e, w1) -> bind m k w = (Err e, w1).
Proof. intros H. unfold bind. rewrite H. reflexivity. Qed.

Lemma bind_ext (m : M A) (k1 k2 : A -> M B) w :
  (forall a w1, k1 a w1 = k2 a w1) -> bind m k1 w = bind m k2 w.
Proof.
  intros H. unfold bind. destruct (m w) as [[a | e] w1]; [apply H | reflexivity].
Qed.

Lemma lift_Ok (r : result A) w a w' :
  lift r w = (Ok a, w') -> r = Ok a /\ w' = w.
Proof. unfold lift. intros H. inversion H. split; reflexivity. Qed.

Lemma ret_Ok (a a' : A) w w' :
  ret a w = (Ok a', w') -> a' = a /\ w' = w.
Proof. unfold ret. intros H. inversion H. split; reflexivity. Qed.

Lemma rbind_Ok (r : result A) (k : A -> result B) b :
  rbind r k = Ok b -> exists a, r = Ok a /\ k a = Ok b.
Proof.
  destruct r as [a | e]; simpl; intros H.
  - exists a. split; [reflexivity | exact H].
  - discriminate H.
Qed.

End MonadLemmas.

(** Take a successful run apart, one bind at a time. *)
Ltac run_inv H :=
  lazymatch type of H with
  | bind _ _ _ = (Ok _, _) =>
      let a := fresh "a" in
      let w1 := fresh "w" in
      let H1 := fresh "Hrun" in
      apply bind_Ok in H; destruct H as (a & w1 & H1 & H)
  | lift _ _ = (Ok _, _) =>
      let H1 := fresh "Hw" in
      apply lift_Ok in H; destruct H as (H & H1); subst
  | ret _ _ = (Ok _, _) =>
      let H1 := fresh "Hw" in
      apply ret_Ok in H; destruct H as (H & H1); subst
  | rbind _ _ = Ok _ =>
      let a := fresh "a" in
      let H1 := fresh "Hval" in
      apply rbind_Ok in H; destruct H as (a & H1 & H)
  end.

(* ===================================================================== *)
(** ** The pagination walk *)
(* ===================================================================== *)

Section Pagination.

Context {E : Env}.

(** The page an exchange delivered: its body, decoded. *)
Definition page_of_exchange (x : Request * result string) : result value :=
  (body <~ snd x ;; text <~ decode_utf8 body ;; json_loads text)%result.

(** [paging['is_end']] is set on [data]. *)
Definition is_end (data : value) : Prop :=
  exists paging flag,
    Py.getitem data "paging" = Ok paging /\
    Py.getitem paging "is_end" = Ok flag /\
    Py.truthy flag = true.

(** Both loops are one walk, up to the comprehension applied to a page
    and the treatment of [paging['next']]. *)
Fixpoint walk (posts_of : value -> result (list value))
    (next_of : value -> result value)
    (fuel : nat) (posts : list value) (page : nat) (data : value)
    : M (option LoopState) :=
  if (List.length posts <? 20)%nat && (page <? 3)%nat then
    match fuel with
    | O => ret None
    | S fuel' =>
        paging <- lift (Py.getitem data "paging") ;;
        flag <- lift (Py.getitem paging "is_end") ;;
        if Py.truthy flag then ret (Some (posts, page, data))
        else
          next <- lift (Py.getitem paging "next") ;;
          next_url <- lift (next_of next) ;;
          data' <- ZhihuAPI.get_json next_url ;;
          more <- lift (posts_of data') ;;
          walk posts_of next_of fuel' (posts ++ more)%list (page + 1)%nat data'
    end
  else ret (Some (posts, page, data)).

Lemma activities_loop_walk fuel : forall posts page data w,
  activities_loop fuel posts page data w =
  walk user_page_posts (fun next => Ok next) fuel posts page data w.
Proof.
  induction fuel as [| fuel IH]; intros posts page data w; simpl.
  - reflexivity.
  - destruct ((List.length posts <? 20)%nat && (page <? 3)%nat); [| reflexivity].
    unfold bind, lift.
    destruct (Py.getitem data "paging") as [paging |]; [| reflexivity].
    destruct (Py.getitem paging "is_end") as [flag |]; [| reflexivity].
    destruct (Py.truthy flag); [reflexivity |].
    destruct (Py.getitem paging "next") as [next |]; [| reflexivity].
    destruct (ZhihuAPI.get_json next w) as [[data' |] w1]; [| reflexivity].
    destruct (user_page_posts data') as [more |]; [| reflexivity].
    apply IH.
Qed.

Lemma topic_loop_walk fuel : forall posts page data w,
  topic_loop fuel posts page data w =
  walk topic_page_posts https_next fuel posts page data w.
Proof.
  induction fuel as [| fuel IH]; intros posts page data w; simpl.
  - reflexivity.
  - destruct ((List.length posts <? 20)%nat && (page <? 3)%nat); [| reflexivity].
    unfold bind, lift.
    destruct (Py.getitem data "paging") as [paging |]; [| reflexivity].
    destruct (Py.getitem paging "is_end") as [flag |]; [| reflexivity].
    destruct (Py.truthy flag); [reflexivity |].
    destruct (Py.getitem paging "next") as [next |]; [| reflexivity].
    destruct (https_next next) as [next_url |]; [| reflexivity].
    destruct (ZhihuAPI.get_json next_url w) as [[data' |] w1]; [| reflexivity].
    destruct (topic_page_posts data') as [more |]; [| reflexivity].
    apply IH.
Qed.

(** A successful [get_json] adds exactly one exchange, whose page it
    returns, and logs nothing. *)
Lemma get_json_Ok url w data w' :
  ZhihuAPI.get_json url w = (Ok data, w') ->
  exists x,
    exchanges w' = (exchanges w ++ [x])%list /\
    warnings w' = warnings w /\
    page_of_exchange x = Ok data.
Proof.
  unfold ZhihuAPI.get_json. intros H.
  run_inv H. unfold fetch_zhihu in Hrun. inversion Hrun; subst; clear Hrun.
  run_inv H. run_inv Hrun. run_inv H.
  eexists. split; [reflexivity |]. split; [reflexivity |].
  unfold page_of_exchange. simpl.
  match goal with Hb : upstream _ _ = Ok _ |- _ => rewrite Hb end.
  simpl. rewrite Hrun. simpl. exact H.
Qed.

(** What a walk that left the loop has done: the exchanges it added, the
    pages they delivered and the posts each page contributed. *)
Inductive walked (posts_of : value -> result (list value))
    (posts : list value) (page : nat) (data : value) (w : World)
    (st : LoopState) (w' : World) : Prop :=
| mkWalked (new : list (Request * result string)) (pages : list value)
    (chunks : list (list value))
    (walked_exchanges : exchanges w' = (exchanges w ++ new)%list)
    (walked_warnings : warnings w' = warnings w)
    (walked_delivered : Forall2 (fun x p => page_of_exchange x = Ok p) new pages)
    (walked_contributed : Forall2 (fun p c => posts_of p = Ok c) pages chunks)
    (walked_posts : fst (fst st) = (posts ++ concat chunks)%list)
    (walked_page : snd (fst st) = (page + List.length pages)%nat)
    (walked_data : snd st = List.last pages data)
    (walked_budget : (snd (fst st) <= 3)%nat)
    (walked_stop :
       (20 <= List.length (fst (fst st)))%nat \/ is_end (snd st) \/
       snd (fst st) = 3%nat).

Lemma last_cons {A} (a d : A) l : List.last (a :: l) d = List.last l a.
Proof.
  revert a d. induction l as [| b l IH]; intros a d; [reflexivity |].
  change (List.last (a :: b :: l) d) with (List.last (b :: l) d).
  rewrite (IH b d), (IH b a). reflexivity.
Qed.

Lemma walk_walked posts_of next_of fuel : forall posts page data w st w',
  (page <= 3)%nat ->
  walk posts_of next_of fuel posts page data w = (Ok (Some st), w') ->
  walked posts_of posts page data w st w'.
Proof.
  induction fuel as [| fuel IH]; intros posts page data w st w' Hpage H;
    simpl in H;
    destruct ((List.length posts <? 20)%nat && (page <? 3)%nat) eqn:Hcond.
  - run_inv H. discriminate H.
  - run_inv H. inversion H; subst; clear H.
    apply (mkWalked _ _ _ _ _ _ _ [] [] []); simpl;
      try rewrite app_nil_r; try rewrite Nat.add_0_r; auto.
    apply andb_false_iff in Hcond. destruct Hcond as [Hc | Hc];
      apply Nat.ltb_ge in Hc; [left | right; right]; lia.
  - apply andb_true_iff in Hcond. destruct Hcond as [_ Hlt].
    apply Nat.ltb_lt in Hlt.
    run_inv H. run_inv Hrun. run_inv H. run_inv Hrun0.
    destruct (Py.truthy a0) eqn:Hflag.
    + run_inv H. inversion H; subst; clear H.
      apply (mkWalked _ _ _ _ _ _ _ [] [] []); simpl;
        try rewrite app_nil_r; try rewrite Nat.add_0_r; auto.
      right; left. exists a, a0. auto.
    + run_inv H. run_inv Hrun1. run_inv H. run_inv Hrun2.
      run_inv H. run_inv H. run_inv Hrun4.
      apply get_json_Ok in Hrun3. destruct Hrun3 as (x & Hx & Hlog & Hpg).
      apply IH in H; [| lia].
      destruct H as [new pages chunks Hex Hwarn Hdel Hcon Hposts Hpg' Hdata Hbud Hstop].
      apply (mkWalked _ _ _ _ _ _ _ (x :: new) (a3 :: pages) (a4 :: chunks)).
      * rewrite Hex, Hx, <- app_assoc. reflexivity.
      * congruence.
      * constructor; assumption.
      * constructor; assumption.
      * rewrite Hposts, <- app_assoc. reflexivity.
      * rewrite Hpg'. simpl. lia.
      * rewrite Hdata. symmetry. apply last_cons.
      * exact Hbud.
      * exact Hstop.
  - run_inv H. inversion H; subst; clear H.
    apply (mkWalked _ _ _ _ _ _ _ [] [] []); simpl;
      try rewrite app_nil_r; try rewrite Nat.add_0_r; auto.
    apply andb_false_iff in Hcond. destruct Hcond as [Hc | Hc];
      apply Nat.ltb_ge in Hc; [left | right; right]; lia.
Qed.

(** Three iterations are all the loop can make: with the fuel the model
    gives it, the bound of the model is never what ends a walk. *)
Lemma walk_terminates posts_of next_of fuel : forall posts page data w,
  (3 <= page + fuel)%nat ->
  fst (walk posts_of next_of fuel posts page data w) <> Ok None.
Proof.
  induction fuel as [| fuel IH]; intros posts page data w Hfuel; simpl;
    destruct ((List.length posts <? 20)%nat && (page <? 3)%nat) eqn:Hcond;
    try (simpl; discriminate).
  - apply andb_true_iff in Hcond. destruct Hcond as [_ Hlt].
    apply Nat.ltb_lt in Hlt. lia.
  - unfold bind, lift.
    destruct (Py.getitem data "paging") as [paging |]; [| simpl; discriminate].
    destruct (Py.getitem paging "is_end") as [flag |]; [| simpl; discriminate].
    destruct (Py.truthy flag); [simpl; discriminate |].
    destruct (Py.getitem paging "next") as [next |]; [| simpl; discriminate].
    destruct (next_of next) as [next_url |]; [| simpl; discriminate].
    destruct (ZhihuAPI.get_json next_url w) as [[data' |] w1]; [| simpl; discriminate].
    destruct (posts_of data') as [more |]; [| simpl; discriminate].
    apply IH. lia.
Qed.

End Pagination.

(* ===================================================================== *)
(** ** The caller of the normaliser *)
(* ===================================================================== *)

(** Modelled from the spec: [base.data2rss], the caller of [post2rss];
    module [base] is imported by [zhihu_stream.py] and its source is not
    at hand.  The spec gives its policy: entries keep the order of the
    posts; a post that normalises to nothing is absent from the feed; a
    post whose normalisation raises is skipped and the remaining posts
    are still processed (error policy of the item normaliser and the
    feed assembler). *)
Fixpoint data2rss_items {D : Type} (transform : value -> M (option (RSSItem D)))
    (posts : list value) : M (list (RSSItem D)) :=
  match posts with
  | [] => ret []
  | post :: rest =>
      fun w =>
        match transform post w with
        | (Ok (Some item), w1) =>
            bind (data2rss_items transform rest) (fun items => ret (item :: items)) w1
        | (Ok None, w1) => data2rss_items transform rest w1
        | (Err _, w1) => data2rss_items transform rest w1
        end
  end.

(** Modelled from the spec: the feed [base.data2rss] assembles from the
    channel metadata and the entries (feed assembler). *)
Definition data2rss_spec {D : Type} (url : string) (info : ChannelInfo)
    (posts : list value) (transform : value -> M (option (RSSItem D)))
    : M (RSS2 D) :=
  items <- data2rss_items transform posts ;;
  ret (mkRSS2 (info_title info) url (info_description info) items).

(* ===================================================================== *)
(** ** A scripted environment *)
(* ===================================================================== *)

(** Stand-ins for the collaborators, to run the module on concrete
    inputs: the upstream answers the n-th request with [script n], bodies
    are looked up in the table [pages] instead of being parsed, an HTML
    tree is its own source text. *)
Module Fixture.

Definition env (script : nat -> result string) (pages : list (string * value))
    : Env := {|
  upstream := fun n _ => script n;
  clock := fun _ => 1541000000%Z;
  urljoin := fun base v =>
    match v with
    | VStr s => if startswith s "http" then s else base ++ s
    | _ => base
    end;
  quote := fun s => s;
  json_dumps := fun v => match v with VDict [(_, VStr s)] => s | _ => "" end;
  json_loads := fun s =>
    match Py.lookup s pages with
    | Some v => Ok v
    | None => Err (Raised "JSONDecodeError")
    end;
  decode_utf8 := fun s => Ok s;
  py_repr := fun _ => "";
  html := string;
  fromstring := fun s => if String.eqb s "" then Err (Raised "ParserError") else Ok s;
  tostring := fun doc => doc;
  xpath := fun doc _ => [doc];
  text_content := fun doc => doc;
  attr_get := fun _ _ => VNone;
  tidy_content := fun doc => Ok doc;
  proxify_pic := fun doc _ => Ok doc;
  datetime := Z;
  utcfromtimestamp := fun v => match v with VInt n => Ok n | _ => Err TypeError end;
  data2rss := data2rss_spec;
  to_xml := fun rss => String.concat "," (map title (rss_items rss));
  handler := list (string * value);
  get_argument := fun self k default =>
    match Py.lookup k self with Some v => v | None => default end
|}.

Definition w0 : World := mkWorld [] [].

(** An activity of a user stream and a page of them. *)
Definition answer (id : Z) (content : string) : value :=
  VDict [("type", VStr "answer"); ("id", VInt id);
         ("question", VDict [("id", VInt 7); ("title", VStr "q")]);
         ("created_time", VInt 1540000000); ("author", VDict [("name", VStr "u")]);
         ("excerpt", VStr "e"); ("content", VStr content)].

Definition activity (verb : string) (target : value) : value :=
  VDict [("verb", VStr verb); ("target", target)].

Definition page_of (items : list value) (is_end : bool) (next : string) : value :=
  VDict [("data", VList items);
         ("paging", VDict [("is_end", VBool is_end); ("next", VStr next)])].

End Fixture.

(* ===================================================================== *)
(** ** Properties of the item normaliser *)
(* ===================================================================== *)

Section StringFacts.

Lemma replace_nonempty s old new :
  new <> "" -> s <> "" -> replace s old new <> "".
Proof.
  intros Hnew Hs. destruct s as [| c s]; [congruence |].
  unfold replace. cbn [replace_from].
  destruct (String.prefix old (String c s)).
  - destruct new; [congruence | simpl; intros H; discriminate H].
  - intros H; discriminate H.
Qed.

Lemma wrap_code_empty content : wrap_code content = "" <-> content = "".
Proof.
  split.
  - intros H. destruct (string_dec content "") as [-> | Hne]; [reflexivity |].
    exfalso. revert H. unfold wrap_code.
    apply replace_nonempty; [discriminate |].
    apply replace_nonempty; [discriminate | exact Hne].
  - intros ->. reflexivity.
Qed.

End StringFacts.

(** The four branches of [post_content], for an item that has a kind. *)
Lemma post_content_cases (post : value) (digest : bool) (ty : value) :
  Py.getitem post "type" = Ok ty ->
  (Py.eq_str ty "question" = true ->
     post_content post digest = Py.getitem post "title") /\
  (Py.eq_str ty "question" = false -> digest = true ->
     post_content post digest = Py.getitem post "excerpt") /\
  (Py.eq_str ty "question" = false -> digest = false ->
     Py.has_key post "content" = false ->
     post_content post digest = Py.getitem post "excerpt") /\
  (Py.eq_str ty "question" = false -> digest = false ->
     Py.has_key post "content" = true ->
     post_content post digest = Py.getitem post "content").
Proof.
  intros Hty. unfold post_content. rewrite Hty. simpl.
  repeat split; intros; subst;
    repeat match goal with H : _ = _ |- _ => rewrite H end; reflexivity.
Qed.

(** C4: the body of an item that has a kind is chosen in this order: the
    title for a question; otherwise the excerpt in digest mode; otherwise
    the excerpt when the item has no [content] key; otherwise the
    content. *)
Theorem post_content_priority (post : value) (digest : bool) (ty : value)
    (Hty : Py.getitem post "type" = Ok ty) :
  (Py.eq_str ty "question" = true ->
     post_content post digest = Py.getitem post "title") /\
  (Py.eq_str ty "question" = false -> digest = true ->
     post_content post digest = Py.getitem post "excerpt") /\
  (Py.eq_str ty "question" = false -> digest = false ->
     Py.has_key post "content" = false ->
     post_content post digest = Py.getitem post "excerpt") /\
  (Py.eq_str ty "question" = false -> digest = false ->
     Py.has_key post "content" = true ->
     post_content post digest = Py.getitem post "content").
Proof. exact (post_content_cases post digest ty Hty). Qed.

Lemma post_content_priority_witness :
  post_content (Fixture.answer 1 "<p>full</p>") false = Ok (VStr "<p>full</p>") /\
  post_content (Fixture.answer 1 "<p>full</p>") true = Ok (VStr "e").
Proof.
  split.
  - rewrite (proj2 (proj2 (proj2
      (post_content_priority (Fixture.answer 1 "<p>full</p>") false
         (VStr "answer") eq_refl))) eq_refl eq_refl eq_refl).
    reflexivity.
  - rewrite (proj1 (proj2
      (post_content_priority (Fixture.answer 1 "<p>full</p>") true
         (VStr "answer") eq_refl)) eq_refl eq_refl).
    reflexivity.
Defined.

Section Normaliser.

Context {E : Env}.

(** C7: for an item whose kind is roundtable, live or column,
    [post2rss] returns nothing, raises nothing and logs nothing; for an
    item of any other kind that is not answer, article or an accepted
    question, it returns nothing, raises nothing and logs one warning
    that names the kind. *)
Theorem post2rss_ignored_kinds (post : value) (digest : bool) (pic : value)
    (extra_types : extra_types_arg) (w : World) (ty : value)
    (Hty : Py.getitem post "type" = Ok ty) :
  (Py.in_strs ty ["roundtable"; "live"; "column"] = true ->
     post2rss post digest pic extra_types w = (Ok None, w)) /\
  (Py.in_strs ty ["answer"; "article"; "roundtable"; "live"; "column"] = false ->
   in_extra "question" extra_types && Py.eq_str ty "question" = false ->
     post2rss post digest pic extra_types w =
     (Ok None,
      mkWorld (exchanges w) (app (warnings w) ["unknown type: " ++ py_str ty]))).
Proof.
  unfold post2rss. rewrite (bind_run _ _ w ty w (f_equal (fun r => (r, w)) Hty)).
  split.
  - intros Hin. destruct ty as [| | | s | |]; try discriminate Hin.
    unfold Py.in_strs in Hin. simpl in Hin.
    assert (Hs : s = "roundtable" \/ s = "live" \/ s = "column").
    { repeat rewrite orb_true_iff in Hin.
      destruct Hin as [H | [H | [H | H]]]; try discriminate H;
        apply String.eqb_eq in H; auto. }
    destruct Hs as [-> | [-> | ->]]; simpl;
      rewrite andb_false_r; reflexivity.
  - intros Hout Hq. unfold Py.in_strs in Hout. simpl in Hout.
    repeat rewrite orb_false_iff in Hout.
    destruct Hout as (Ha & Hb & Hc & Hd & He & _).
    rewrite Ha, Hb, Hq. unfold Py.in_strs. simpl.
    rewrite Hc, Hd, He. reflexivity.
Qed.

End Normaliser.

Lemma post2rss_ignored_kinds_witness :
  post2rss (E := Fixture.env (fun _ => Ok "") [])
    (VDict [("type", VStr "roundtable")]) false VNone (ETuple []) Fixture.w0
  = (Ok None, Fixture.w0) /\
  post2rss (E := Fixture.env (fun _ => Ok "") [])
    (VDict [("type", VStr "question")]) false VNone (ETuple []) Fixture.w0
  = (Ok None, mkWorld [] ["unknown type: question"]).
Proof.
  split.
  - apply (proj1 (post2rss_ignored_kinds (E := Fixture.env (fun _ => Ok "") [])
      (VDict [("type", VStr "roundtable")]) false VNone (ETuple []) Fixture.w0
      (VStr "roundtable") eq_refl)).
    reflexivity.
  - apply (proj2 (post2rss_ignored_kinds (E := Fixture.env (fun _ => Ok "") [])
      (VDict [("type", VStr "question")]) false VNone (ETuple []) Fixture.w0
      (VStr "question") eq_refl)); reflexivity.
Defined.

Section Body.

Context {E : Env}.

(** The picture that stands for an empty body (line 230). *)
Definition thumbnail_tag (post : value) : string :=
  "<img src=" ++ dquote ++ py_str (Py.get post "thumbnail") ++ dquote ++ ">".

(** What [post2rss_item] computes once the body is known: the body, or
    the picture when the body is empty, goes through [render]. *)
Lemma post2rss_item_body post digest pic title url t_c author body :
  post_content post digest = Ok (VStr body) ->
  post2rss_item post digest pic title url t_c author =
  (out <~ render (if String.eqb body "" then thumbnail_tag post
                  else wrap_code body) pic ;;
   pub_date <~ utcfromtimestamp t_c ;;
   Ok (Some (mkRSSItem (replace title backspace "") url url
                       (replace out backspace "") pub_date author)))%result.
Proof.
  intros Hbody. unfold post2rss_item. rewrite Hbody. simpl.
  destruct (String.eqb_spec body "") as [-> | Hne].
  - reflexivity.
  - destruct (String.eqb_spec (wrap_code body) "") as [Hw | _]; [| reflexivity].
    apply (proj1 (wrap_code_empty body)) in Hw. contradiction.
Qed.

(** C3 (defect of lines 225-226): the opening tag is only rewritten in
    the form [<code ] followed by attributes, the closing tag always.  A
    [<code>] element without attributes is therefore not wrapped: no
    [<pre>] is opened before it and an unmatched [</pre>] is appended
    after it, and that text is what the parser is given; the same
    element with an attribute is wrapped on both sides. *)
Theorem wrap_code_bare_element_not_wrapped (pic : value) (title url : string)
    (t_c author : value) :
  wrap_code "<code>x</code>" = "<code>x</code></pre>" /\
  contains "<pre>" (wrap_code "<code>x</code>") = false /\
  wrap_code "<code class=a>x</code>" = "<pre><code class=a>x</code></pre>" /\
  post2rss_item (Fixture.answer 1 "<code>x</code>") false pic title url t_c author =
  (out <~ render "<code>x</code></pre>" pic ;;
   pub_date <~ utcfromtimestamp t_c ;;
   Ok (Some (mkRSSItem (replace title backspace "") url url
                       (replace out backspace "") pub_date author)))%result.
Proof.
  repeat split.
Qed.

(** An item returned by [post2rss] was built by [post2rss_item], and the
    call touched neither the upstream nor the log. *)
Lemma post2rss_Some post digest pic extra_types w item w' :
  post2rss post digest pic extra_types w = (Ok (Some item), w') ->
  w' = w /\
  exists title url t_c author,
    post2rss_item post digest pic title url t_c author = Ok (Some item).
Proof.
  unfold post2rss. intros H. run_inv H. run_inv Hrun.
  destruct (Py.eq_str a "answer").
  { run_inv H. split; [reflexivity |]. repeat run_inv H. eauto. }
  destruct (Py.eq_str a "article").
  { run_inv H. split; [reflexivity |]. repeat run_inv H. eauto. }
  destruct (in_extra "question" extra_types && Py.eq_str a "question").
  { run_inv H. split; [reflexivity |]. repeat run_inv H. eauto. }
  destruct (Py.in_strs a ["roundtable"; "live"; "column"]).
  { run_inv H. discriminate H. }
  run_inv H. run_inv H. discriminate H.
Qed.

(** C5: when the selected body of an item is empty, the text handed to
    the sanitiser is the single tag [<img src="u">] with [u] the item's
    thumbnail, and the entry's body is what [render] (parse, tidy,
    optional proxy rewriting, serialise) makes of it; a non-empty body
    goes through the same [render] after its code blocks were wrapped. *)
Theorem empty_body_becomes_thumbnail (post : value) (digest : bool)
    (pic : value) (u : string)
    (Hthumb : Py.get post "thumbnail" = VStr u) :
  (forall title url t_c author,
     post_content post digest = Ok (VStr "") ->
     post2rss_item post digest pic title url t_c author =
     (out <~ render ("<img src=" ++ dquote ++ u ++ dquote ++ ">") pic ;;
      pub_date <~ utcfromtimestamp t_c ;;
      Ok (Some (mkRSSItem (replace title backspace "") url url
                          (replace out backspace "") pub_date author)))%result) /\
  (forall extra_types w item w',
     post2rss post digest pic extra_types w = (Ok (Some item), w') ->
     (post_content post digest = Ok (VStr "") ->
        exists out,
          render ("<img src=" ++ dquote ++ u ++ dquote ++ ">") pic = Ok out /\
          description item = replace out backspace "") /\
     (forall body, body <> "" -> post_content post digest = Ok (VStr body) ->
        exists out,
          render (wrap_code body) pic = Ok out /\
          description item = replace out backspace "")).
Proof.
  split.
  - intros title url t_c author Hbody.
    rewrite (post2rss_item_body _ _ _ _ _ _ _ _ Hbody). simpl.
    unfold thumbnail_tag. rewrite Hthumb. reflexivity.
  - intros extra_types w item w' Hrun.
    apply post2rss_Some in Hrun.
    destruct Hrun as (_ & title & url & t_c & author & Hitem).
    split.
    + intros Hbody.
      rewrite (post2rss_item_body _ _ _ _ _ _ _ _ Hbody) in Hitem.
      simpl in Hitem. unfold thumbnail_tag in Hitem. rewrite Hthumb in Hitem.
      simpl in Hitem. run_inv Hitem. run_inv Hitem.
      inversion Hitem; subst; clear Hitem.
      exists a. split; [exact Hval | reflexivity].
    + intros body Hne Hbody.
      rewrite (post2rss_item_body _ _ _ _ _ _ _ _ Hbody) in Hitem.
      destruct (String.eqb_spec body "") as [Heq | _]; [contradiction |].
      run_inv Hitem. run_inv Hitem.
      inversion Hitem; subst; clear Hitem.
      exists a. split; [exact Hval | reflexivity].
Qed.

End Body.

Module BodyFixture.

Definition E : Env := Fixture.env (fun _ => Ok "") [].

Definition picture_post : value :=
  VDict [("type", VStr "article"); ("id", VInt 5); ("title", VStr "pictures");
         ("created", VInt 1540000000); ("author", VDict [("name", VStr "u")]);
         ("excerpt", VStr ""); ("content", VStr "");
         ("thumbnail", VStr "https://pic1.zhimg.com/a.jpg")].

End BodyFixture.

Lemma empty_body_becomes_thumbnail_witness :
  exists item,
    post2rss (E := BodyFixture.E) BodyFixture.picture_post false VNone (ETuple [])
      Fixture.w0 = (Ok (Some item), Fixture.w0) /\
    exists out,
      render (E := BodyFixture.E)
        ("<img src=" ++ dquote ++ "https://pic1.zhimg.com/a.jpg" ++ dquote ++ ">")
        VNone = Ok out /\
      description item = replace out backspace "".
Proof.
  eexists. split.
  - vm_compute. reflexivity.
  - apply (proj1 (proj2
      (empty_body_becomes_thumbnail (E := BodyFixture.E) BodyFixture.picture_post
         false VNone "https://pic1.zhimg.com/a.jpg" eq_refl)
      (ETuple []) Fixture.w0 _ Fixture.w0 eq_refl)).
    reflexivity.
Defined.

(* ===================================================================== *)
(** ** Incomplete items *)
(* ===================================================================== *)








Section Incomplete.

Context {E : Env}.



End Incomplete.


Section ErrorPolicy.

Context {E : Env}.


End ErrorPolicy.

Module ErrorFixture.



End ErrorFixture.



(* ===================================================================== *)
(** ** Properties of the pagination walk *)
(* ===================================================================== *)

(** The two feeds that paginate. *)
Inductive stream : Type :=
| UserStream (name : string)
| TopicStream (id : string) (sort : value).

(** The acceptance policy of a feed, on one element of [data['data']]:
    the verbs of [ACCEPT_VERBS] for a user, everything for a topic. *)
Definition verb_accepted (x : value) : bool :=
  match Py.getitem x "verb" with
  | Ok verb => Py.in_strs verb ACCEPT_VERBS
  | Err _ => false
  end.

Definition accepts (s : stream) : value -> bool :=
  match s with
  | UserStream _ => verb_accepted
  | TopicStream _ _ => fun _ => true
  end.

Definition stream_page_posts (s : stream) : value -> result (list value) :=
  match s with
  | UserStream _ => user_page_posts
  | TopicStream _ _ => topic_page_posts
  end.

(** [chunk] is what [page] contributes: the targets of the elements of
    [page['data']] that pass [accept], one for one and in their order. *)
Definition page_chunk (accept : value -> bool) (page : value)
    (chunk : list value) : Prop :=
  exists d xs,
    Py.getitem page "data" = Ok d /\
    Py.iter d = Ok xs /\
    Forall2 (fun x t => Py.getitem x "target" = Ok t) (filter accept xs) chunk.

Lemma accepted_targets_filter xs : forall ts,
  accepted_targets xs = Ok ts ->
  Forall2 (fun x t => Py.getitem x "target" = Ok t) (filter verb_accepted xs) ts.
Proof.
  induction xs as [| x xs IH]; intros ts H; cbn [accepted_targets] in H.
  - inversion H. constructor.
  - run_inv H. cbn [filter]. unfold verb_accepted at 1. rewrite Hval.
    destruct (Py.in_strs a ACCEPT_VERBS).
    + run_inv H. run_inv H. inversion H; subst. constructor; auto.
    + auto.
Qed.

Lemma all_targets_filter xs : forall ts,
  all_targets xs = Ok ts ->
  Forall2 (fun x t => Py.getitem x "target" = Ok t) (filter (fun _ => true) xs) ts.
Proof.
  induction xs as [| x xs IH]; intros ts H; cbn [all_targets] in H.
  - inversion H. constructor.
  - run_inv H. run_inv H. inversion H; subst. cbn [filter]. constructor; auto.
Qed.

Lemma stream_page_chunk s page chunk :
  stream_page_posts s page = Ok chunk -> page_chunk (accepts s) page chunk.
Proof.
  destruct s; simpl; intros H;
    [unfold user_page_posts in H | unfold topic_page_posts in H];
    run_inv H; run_inv H; exists a, a0; repeat split; auto.
  - apply accepted_targets_filter. exact H.
  - apply all_targets_filter. exact H.
Qed.


Section Streams.

Context {E : Env}.

(** Lines 145-160 of [activities2rss] and 263-279 of [topic2rss]. *)
Definition stream_posts (s : stream) : M (option LoopState) :=
  match s with
  | UserStream name => activities_posts name
  | TopicStream id sort => topic_posts id sort
  end.

(** The first request of a feed and its treatment of [paging['next']]. *)
Definition stream_first_page (s : stream) : M value :=
  match s with
  | UserStream name => ZhihuAPI.activities name
  | TopicStream id sort => ZhihuAPI.topic id sort
  end.

Definition stream_next (s : stream) : value -> result value :=
  match s with
  | UserStream _ => fun next => Ok next
  | TopicStream _ _ => https_next
  end.

(** The first page, then the walk. *)
Lemma stream_posts_walk s w :
  stream_posts s w =
  (data <- stream_first_page s ;;
   posts <- lift (stream_page_posts s data) ;;
   walk (stream_page_posts s) (stream_next s) 3 posts 0 data) w.
Proof.
  destruct s as [name | id sort];
    cbn [stream_posts stream_page_posts stream_first_page stream_next];
    [unfold activities_posts | unfold topic_posts];
    apply bind_ext; intros data w1; apply bind_ext; intros posts w2;
    [apply activities_loop_walk | apply topic_loop_walk].
Qed.

Lemma stream_first_page_Ok s w data w1 :
  stream_first_page s w = (Ok data, w1) ->
  exists x,
    exchanges w1 = (exchanges w ++ [x])%list /\
    warnings w1 = warnings w /\
    page_of_exchange x = Ok data.
Proof.
  destruct s as [name | id sort]; cbn [stream_first_page]; intros H;
    [unfold ZhihuAPI.activities in H | unfold ZhihuAPI.topic in H];
    run_inv H; unfold time_time in Hrun; inversion Hrun; subst;
    eapply get_json_Ok; exact H.
Qed.

(** The model's iteration bound never ends a walk: whenever the code
    would leave its loop, so does the model. *)
Lemma stream_posts_terminates s w : fst (stream_posts s w) <> Ok None.
Proof.
  rewrite stream_posts_walk.
  unfold bind. destruct (stream_first_page s w) as [[data |] w1]; [| simpl; discriminate].
  unfold lift. destruct (stream_page_posts s data); [| simpl; discriminate].
  apply walk_terminates. lia.
Qed.







(** What a run of the aggregation has done when it returns. *)
Inductive stream_trace (s : stream) (w : World) (st : LoopState) (w' : World)
    : Prop :=
| mkTrace (x0 : Request * result string) (data0 : value) (chunk0 : list value)
    (new : list (Request * result string)) (pages : list value)
    (chunks : list (list value))
    (trace_exchanges : exchanges w' = (exchanges w ++ x0 :: new)%list)
    (trace_first : page_of_exchange x0 = Ok data0)
    (trace_first_posts : stream_page_posts s data0 = Ok chunk0)
    (trace_delivered : Forall2 (fun x p => page_of_exchange x = Ok p) new pages)
    (trace_contributed :
       Forall2 (fun p c => stream_page_posts s p = Ok c) pages chunks)
    (trace_posts : fst (fst st) = (chunk0 ++ concat chunks)%list)
    (trace_page : snd (fst st) = List.length pages)
    (trace_data : snd st = List.last pages data0)
    (trace_budget : (snd (fst st) <= 3)%nat)
    (trace_stop :
       (20 <= List.length (fst (fst st)))%nat \/ is_end (snd st) \/
       snd (fst st) = 3%nat).

Lemma stream_posts_trace s w st w' :
  stream_posts s w = (Ok (Some st), w') -> stream_trace s w st w'.
Proof.
  rewrite stream_posts_walk.
  intros H. run_inv H. run_inv H. run_inv Hrun0.
  destruct (stream_first_page_Ok _ _ _ _ Hrun) as (x0 & Hx0 & _ & Hpage).
  apply walk_walked in H; [| lia].
  destruct H as [new pages chunks Hex _ Hdel Hcon Hposts Hpg Hdata Hbud Hstop].
  apply (mkTrace s w st w' x0 a a0 new pages chunks); auto.
  rewrite Hex, Hx0, <- app_assoc. reflexivity.
Qed.


(** C6: the post list an aggregation returns is the concatenation, page
    by page in the order the pages were fetched, of what each page
    contributes: the targets of the page's elements that pass the
    acceptance policy, one for one and in the page's order. *)
Theorem aggregation_preserves_order (s : stream) (w : World) :
  fst (stream_posts s w) <> Ok None /\
  forall posts page data w',
    stream_posts s w = (Ok (Some (posts, page, data)), w') ->
    exists new pages chunks,
      exchanges w' = (exchanges w ++ new)%list /\
      Forall2 (fun x p => page_of_exchange x = Ok p) new pages /\
      Forall2 (page_chunk (accepts s)) pages chunks /\
      posts = concat chunks.
Proof.
  split; [apply stream_posts_terminates |].
  intros posts page data w' H. apply stream_posts_trace in H.
  destruct H as [x0 data0 chunk0 new pages chunks Hex Hfirst Hfp Hdel Hcon
                   Hposts Hpg Hdata Hbud Hstop].
  simpl in *.
  exists (x0 :: new), (data0 :: pages), (chunk0 :: chunks).
  split; [exact Hex |]. split; [constructor; assumption |]. split.
  - constructor; [apply stream_page_chunk; exact Hfp |].
    apply (Forall2_impl (page_chunk (accepts s))
             (fun p c => stream_page_chunk s p c) Hcon).
  - exact Hposts.
Qed.

End Streams.

Module StreamFixture.

Import Fixture.

(** A user whose first page holds two accepted activities and one that
    is not, and whose second page is the last. *)
Definition pages : list (string * value) :=
  [("page 0",
    page_of [activity "ANSWER_CREATE" (answer 1 "<p>a</p>");
             activity "MEMBER_FOLLOW_QUESTION" (VDict [("type", VStr "question")]);
             activity "MEMBER_CREATE_ARTICLE" (answer 2 "<p>b</p>")]
            false "https://www.zhihu.com/api/v4/members/alice/activities?page=1");
   ("page 1", page_of [activity "ANSWER_CREATE" (answer 3 "<p>c</p>")] true "")].

Definition script (n : nat) : result string :=
  match n with
  | O => Ok "page 0"
  | _ => Ok "page 1"
  end.

Definition E : Env := Fixture.env script pages.

Definition outcome : result (option LoopState) * World :=
  Eval vm_compute in stream_posts (E := E) (UserStream "alice") w0.

Definition state : LoopState :=
  match fst outcome with
  | Ok (Some st) => st
  | _ => ([], O, VNone)
  end.

Definition posts : list value := fst (fst state).
Definition page : nat := snd (fst state).
Definition data : value := snd state.
Definition final : World := snd outcome.

End StreamFixture.



Lemma aggregation_preserves_order_witness :
  exists new pages chunks,
    exchanges StreamFixture.final = (exchanges Fixture.w0 ++ new)%list /\
    Forall2 (fun x p => page_of_exchange (E := StreamFixture.E) x = Ok p) new pages /\
    Forall2 (page_chunk (accepts (UserStream "alice"))) pages chunks /\
    StreamFixture.posts = concat chunks.
Proof.
  apply (proj2 (aggregation_preserves_order (E := StreamFixture.E)
                  (UserStream "alice") Fixture.w0)
           StreamFixture.posts StreamFixture.page StreamFixture.data
           StreamFixture.final).
  vm_compute. reflexivity.
Defined.

(** The run of the fixture: three posts in upstream order, one page
    fetched after the first, stopped by [is_end]. *)
Example stream_fixture_run :
  StreamFixture.posts =
    [Fixture.answer 1 "<p>a</p>"; Fixture.answer 2 "<p>b</p>";
     Fixture.answer 3 "<p>c</p>"] /\
  StreamFixture.page = 1%nat /\
  List.length (exchanges StreamFixture.final) = 2%nat.
Proof. repeat split. Qed.

Module ScenarioA.

Import Fixture.

Definition accepted (first count : nat) : list value :=
  map (fun n => activity "ANSWER_CREATE" (answer (Z.of_nat n) "<p>a</p>"))
      (seq first count).

(** Two pages with 15 then 10 accepted items, [is_end] on the second. *)
Definition pages : list (string * value) :=
  [("page 0", page_of (accepted 0 15) false "next");
   ("page 1", page_of (accepted 15 10) true "")].

Definition E : Env := Fixture.env StreamFixture.script pages.

End ScenarioA.

(** Scenario A: 15 then 10 accepted items give 25 posts after one extra
    fetch; the count is not capped at 20. *)
Example scenario_A :
  exists posts data w',
    stream_posts (E := ScenarioA.E) (UserStream "alice") Fixture.w0 =
      (Ok (Some (posts, 1%nat, data)), w') /\
    List.length posts = 25%nat /\
    List.length (exchanges w') = 2%nat.
Proof. do 3 eexists. split; [vm_compute; reflexivity | split; reflexivity]. Qed.

(* ===================================================================== *)
(** ** Properties of the request handlers *)
(* ===================================================================== *)

Lemma eq_str_false v s : Py.eq_str v s = false <-> v <> VStr s.
Proof.
  destruct v; simpl; try (split; [discriminate | reflexivity]).
  rewrite String.eqb_neq. split; [congruence |].
  intros H Heq. apply H. rewrite Heq. reflexivity.
Qed.


Section Handlers.

Context {E : Env}.

(** C8: when the profile-card request of a user stream is answered by an
    empty body, the request fails with [HTTPError(404)]; nothing else is
    fetched. *)
Theorem empty_card_is_not_found (self : handler) (name : string) (w : World)
    (Hempty : upstream (List.length (exchanges w)) (ZhihuAPI.card_request name)
              = Ok "") :
  fst (ZhihuStream_get self name w) = Err (HTTPError 404) /\
  (endswith name " " = false ->
   snd (ZhihuStream_get self name w) =
   mkWorld (exchanges w ++ [(ZhihuAPI.card_request name, Ok "")])%list (warnings w)).
Proof.
  unfold ZhihuStream_get. destruct (endswith name " ").
  - split; [reflexivity | discriminate].
  - unfold activities2rss, ZhihuAPI.card.
    assert (Hfetch : fetch_zhihu (ZhihuAPI.card_request name) w =
              (Ok "", mkWorld (exchanges w ++ [(ZhihuAPI.card_request name, Ok "")])%list
                              (warnings w))).
    { unfold fetch_zhihu. rewrite Hempty. reflexivity. }
    rewrite (bind_fail _ _ w (HTTPError 404)
               (mkWorld (exchanges w ++ [(ZhihuAPI.card_request name, Ok "")])%list
                        (warnings w))).
    + split; reflexivity.
    + rewrite (bind_run _ _ _ _ _ Hfetch). reflexivity.
Qed.

(** C9: when the [sort] argument of a topic-stream request is absent, or
    is anything but [hot] and [newest], the request is processed as
    [topic2rss] with [sort='hot']. *)
Theorem unrecognized_sort_is_hot (self : handler) (id : string) (w : World)
    (Hsort : get_argument self "sort" VNone = VNone \/
             (get_argument self "sort" VNone <> VStr "hot" /\
              get_argument self "sort" VNone <> VStr "newest")) :
  ZhihuTopic_get self id w =
  (if endswith id " " then raise (HTTPError 404)
   else topic2rss id (VStr "hot") (get_argument self "pic" VNone)) w.
Proof.
  unfold ZhihuTopic_get.
  assert (Hin : Py.in_strs (get_argument self "sort" VNone) ["newest"; "hot"] = false).
  { unfold Py.in_strs. simpl. destruct Hsort as [-> | [Hhot Hnew]]; [reflexivity |].
    rewrite (proj2 (eq_str_false _ _) Hhot), (proj2 (eq_str_false _ _) Hnew).
    reflexivity. }
  rewrite Hin. reflexivity.
Qed.


End Handlers.

Module HandlerFixture.

(** A deactivated account: the profile card comes back empty. *)
Definition E : Env := Fixture.env (fun _ => Ok "") [].

(** [?sort=bogus] *)
Definition bogus_sort : list (string * value) := [("sort", VStr "bogus")].

End HandlerFixture.

Lemma empty_card_is_not_found_witness :
  fst (ZhihuStream_get (E := HandlerFixture.E) [] "bei-feng-san-dai" Fixture.w0)
  = Err (HTTPError 404).
Proof.
  apply (proj1 (empty_card_is_not_found (E := HandlerFixture.E) []
                  "bei-feng-san-dai" Fixture.w0 eq_refl)).
Defined.

Lemma unrecognized_sort_is_hot_witness :
  ZhihuTopic_get (E := StreamFixture.E) HandlerFixture.bogus_sort "19551894"
    Fixture.w0 =
  topic2rss (E := StreamFixture.E) "19551894" (VStr "hot") VNone Fixture.w0.
Proof.
  apply (unrecognized_sort_is_hot (E := StreamFixture.E)
           HandlerFixture.bogus_sort "19551894" Fixture.w0).
  right. split; discriminate.
Defined.

Module TopicFixture.

Import Fixture.

Definition question (id : Z) (t : string) : value :=
  VDict [("type", VStr "question"); ("id", VInt id); ("title", VStr t);
         ("created", VInt 1540000000)].

(** A topic whose first page holds a question, an answer and a live, and
    links to the next page over plain http; the second page holds a kind
    the module does not know and is the last. *)
Definition pages : list (string * value) :=
  [("page 0",
    page_of [VDict [("target", question 1 "why")];
             VDict [("target", answer 2 "<p>b</p>")];
             VDict [("target", VDict [("type", VStr "live")])]]
            false
            "http://www.zhihu.com/api/v4/topics/19551894/feeds/top_activity?after_id=1");
   ("page 1", page_of [VDict [("target", VDict [("type", VStr "pin")])]] true "")].

Definition script (n : nat) : result string :=
  match n with
  | O => Ok "topic"
  | 1%nat => Ok "page 0"
  | _ => Ok "page 1"
  end.

Definition E : Env := Fixture.env script pages.

End TopicFixture.

(** Scenarios B and C on a whole request: [sort=bogus] fetches the hot
    feed, the next page is followed over https, the question and the
    answer make the feed in upstream order, the live is dropped silently
    and the unknown kind with a warning. *)
Example topic_fixture_run :
  let out := ZhihuTopic_get (E := TopicFixture.E) HandlerFixture.bogus_sort
               "19551894" Fixture.w0 in
  fst out = Ok "[问题] why,[回答] q" /\
  map (fun x => req_url (fst x)) (exchanges (snd out)) =
    ["https://www.zhihu.com/topic/19551894";
     "https://www.zhihu.com/api/v4/topics/19551894/feeds/top_activity?desktop=True&after_id=1541000000&limit=7";
     "https://www.zhihu.com/api/v4/topics/19551894/feeds/top_activity?after_id=1"] /\
  warnings (snd out) = ["unknown type: pin"].
Proof. vm_compute. repeat split. Qed.

(* ===================================================================== *)
(** ** Further properties: the string operations the module relies on *)
(* ===================================================================== *)

(** What is left of [s] once every occurrence of the character [c] is
    taken out. *)
Fixpoint remove_char (c : ascii) (s : string) : string :=
  match s with
  | EmptyString => EmptyString
  | String a s' =>
      if Ascii.eqb a c then remove_char c s' else String a (remove_char c s')
  end.

Section MoreStringFacts.

Lemma prefix_app p r : String.prefix p (p ++ r) = true.
Proof.
  induction p as [| a p IH]; [destruct r; reflexivity |].
  simpl. destruct (ascii_dec a a) as [_ | Hne]; [exact IH | congruence].
Qed.

Lemma drop_app p r : drop (String.length p) (p ++ r) = r.
Proof. induction p as [| a p IH]; [reflexivity | exact IH]. Qed.

Lemma endswith_refl s : endswith s s = true.
Proof. destruct s; simpl; [reflexivity |]. rewrite Ascii.eqb_refl, String.eqb_refl. reflexivity. Qed.

Lemma endswith_app s suf : endswith (s ++ suf) suf = true.
Proof.
  induction s as [| a s IH]; [apply endswith_refl |].
  change (String a s ++ suf) with (String a (s ++ suf)).
  cbn [endswith]. rewrite IH.
  destruct (String.eqb (String a (s ++ suf)) suf); reflexivity.
Qed.

Lemma endswith_split s suf :
  endswith s suf = true -> exists p, s = p ++ suf.
Proof.
  induction s as [| a s IH]; cbn [endswith].
  - destruct (String.eqb_spec "" suf) as [<- | _]; [| discriminate].
    intros _. exists "". reflexivity.
  - destruct (String.eqb_spec (String a s) suf) as [<- | _].
    + intros _. exists "". reflexivity.
    + intros H. destruct (IH H) as (p & ->). exists (String a p). reflexivity.
Qed.

Lemma prefix_single c a s :
  String.prefix (String c "") (String a s) = Ascii.eqb a c.
Proof.
  simpl. destruct (ascii_dec c a) as [-> | Hne].
  - rewrite Ascii.eqb_refl. destruct s; reflexivity.
  - symmetry. apply Ascii.eqb_neq. congruence.
Qed.

(** Replacing a character by nothing takes out its occurrences, all of
    them and nothing else. *)
Lemma replace_char_by_nothing c s :
  replace s (String c "") "" = remove_char c s.
Proof.
  unfold replace. induction s as [| a s IH]; [reflexivity |].
  cbn [replace_from remove_char]. rewrite prefix_single.
  destruct (Ascii.eqb a c); simpl; rewrite IH; reflexivity.
Qed.

Lemma remove_char_absent c s : contains (String c "") (remove_char c s) = false.
Proof.
  induction s as [| a s IH]; [reflexivity |].
  cbn [remove_char]. destruct (Ascii.eqb a c) eqn:Hac; [exact IH |].
  cbn [contains]. rewrite prefix_single, Hac. exact IH.
Qed.

(** Where [old] does not occur, [replace] changes nothing. *)
Lemma replace_absent s old new :
  contains old s = false -> replace s old new = s.
Proof.
  unfold replace. induction s as [| a s IH]; intros H; [reflexivity |].
  cbn [contains] in H. cbn [replace_from].
  destruct (String.prefix old (String a s)); [discriminate H |].
  rewrite (IH H). reflexivity.
Qed.

End MoreStringFacts.

(** X1: a body without a [<code ] opening and without a [</code>]
    closing leaves lines 225-226 of [post2rss] as it entered them. *)
Theorem wrap_code_without_code (content : string)
    (Hopen : contains "<code " content = false)
    (Hclose : contains "</code>" content = false) :
  wrap_code content = content.
Proof.
  unfold wrap_code. rewrite (replace_absent _ _ _ Hopen).
  apply replace_absent. exact Hclose.
Qed.

Lemma wrap_code_without_code_witness :
  wrap_code "<p>no code here</p>" = "<p>no code here</p>".
Proof. apply wrap_code_without_code; reflexivity. Defined.

(** X2: [next_url] of [topic2rss] (lines 272-274): a link that starts
    with [http://] is followed with [https://] and the same remainder,
    any other string is followed as it is, the link that is followed
    never starts with [http://], treating it again changes nothing, and
    a link that is not a string raises [AttributeError]. *)
Theorem https_next_upgrades_scheme :
  (forall rest, https_next (VStr ("http://" ++ rest)) = Ok (VStr ("https://" ++ rest))) /\
  (forall u, startswith u "http://" = false -> https_next (VStr u) = Ok (VStr u)) /\
  (forall next url, https_next next = Ok url ->
     exists u, url = VStr u /\ startswith u "http://" = false) /\
  (forall next url, https_next next = Ok url -> https_next url = Ok url) /\
  (forall next, (forall u, next <> VStr u) -> https_next next = Err AttributeError).
Proof.
  assert (Hnever : forall next url, https_next next = Ok url ->
            exists u, url = VStr u /\ startswith u "http://" = false).
  { intros next url H. destruct next as [| | | u | |]; try discriminate H.
    unfold https_next in H. destruct (startswith u "http://") eqn:Hu;
      inversion H; subst; clear H; eexists; split; try reflexivity.
    exact Hu. }
  split; [| split; [| split; [exact Hnever | split]]].
  - intros rest. unfold https_next, startswith.
    rewrite (prefix_app "http://" rest).
    rewrite (drop_app "http://" rest). reflexivity.
  - intros u Hu. unfold https_next. rewrite Hu. reflexivity.
  - intros next url H. destruct (Hnever next url H) as (u & -> & Hu).
    unfold https_next. rewrite Hu. reflexivity.
  - intros next Hnot. destruct next; try reflexivity.
    exfalso. apply (Hnot s). reflexivity.
Qed.

Lemma https_next_upgrades_scheme_witness :
  https_next (VStr "https://www.zhihu.com/api/v4/x") =
    Ok (VStr "https://www.zhihu.com/api/v4/x") /\
  exists u,
    VStr "https://www.zhihu.com/api/v4/x" = VStr u /\
    startswith u "http://" = false.
Proof.
  split.
  - apply (proj1 (proj2 https_next_upgrades_scheme)). reflexivity.
  - apply (proj1 (proj2 (proj2 https_next_upgrades_scheme))
             (VStr "http://www.zhihu.com/api/v4/x")).
    reflexivity.
Defined.

(* ===================================================================== *)
(** ** Further properties: the item normaliser *)
(* ===================================================================== *)

Lemma rbind_ext {A B} (r : result A) (k1 k2 : A -> result B) :
  (forall a, k1 a = k2 a) -> rbind r k1 = rbind r k2.
Proof. intros H. destruct r; [apply H | reflexivity]. Qed.

Section MoreNormaliser.

Context {E : Env}.

(** The fields of an entry [post2rss_item] returns. *)
Lemma post2rss_item_fields post digest pic t url t_c a item :
  post2rss_item post digest pic t url t_c a = Ok (Some item) ->
  title item = replace t backspace "" /\
  link item = url /\ guid item = url /\ author item = a /\
  utcfromtimestamp t_c = Ok (pubDate item) /\
  exists out, description item = replace out backspace "".
Proof.
  unfold post2rss_item. intros H. run_inv H.
  destruct a0; try discriminate H.
  run_inv H. run_inv H. inversion H; subst; clear H. simpl.
  repeat split; eauto.
Qed.

(** X3: the title and the body of every entry [post2rss] returns are
    free of the backspace character (lines 241 and 244). *)
Theorem post2rss_strips_backspace (post : value) (digest : bool) (pic : value)
    (extra_types : extra_types_arg) (w w' : World) (item : RSSItem datetime)
    (Hrun : post2rss post digest pic extra_types w = (Ok (Some item), w')) :
  contains backspace (title item) = false /\
  contains backspace (description item) = false.
Proof.
  apply post2rss_Some in Hrun.
  destruct Hrun as (_ & t & url & t_c & a & Hitem).
  apply post2rss_item_fields in Hitem.
  destruct Hitem as (Ht & _ & _ & _ & _ & out & Hd).
  rewrite Ht, Hd. unfold backspace.
  rewrite !replace_char_by_nothing. split; apply remove_char_absent.
Qed.

(** X4: [post2rss] issues no request; it writes to the log only when it
    returns nothing for a kind it does not know, and then one warning;
    when it raises or returns an entry it leaves the world as it was. *)
Theorem post2rss_effects (post : value) (digest : bool) (pic : value)
    (extra_types : extra_types_arg) (w : World) :
  let out := post2rss post digest pic extra_types w in
  exchanges (snd out) = exchanges w /\
  (snd out = w \/
   exists ty,
     Py.getitem post "type" = Ok ty /\ fst out = Ok None /\
     warnings (snd out) = app (warnings w) ["unknown type: " ++ py_str ty]) /\
  (forall e, fst out = Err e -> snd out = w) /\
  (forall item, fst out = Ok (Some item) -> snd out = w).
Proof.
  cbv zeta. unfold post2rss, bind, lift, ret, logger_warn.
  destruct (Py.getitem post "type") as [ty | e] eqn:Hty; cbv beta iota;
    [| simpl; repeat split; auto].
  destruct (Py.eq_str ty "answer"); [simpl; repeat split; auto |].
  destruct (Py.eq_str ty "article"); [simpl; repeat split; auto |].
  destruct (in_extra "question" extra_types && Py.eq_str ty "question");
    [simpl; repeat split; auto |].
  destruct (Py.in_strs ty ["roundtable"; "live"; "column"]);
    [simpl; repeat split; auto |].
  simpl. repeat split; try discriminate.
  right. exists ty. repeat split.
Qed.

(** X5: the entry [post2rss] makes of each kind (lines 198-215): the
    title is the kind's prefix followed by the title of the question
    (answer) or of the item, the link is built from the identifiers, the
    guid is the link, the timestamp is [created_time] for an answer and
    [created] otherwise, and the author is the author's name, or [None]
    for a question. *)
Theorem post2rss_entry_of_kind (post : value) (digest : bool) (pic : value)
    (extra_types : extra_types_arg) (w w' : World) (item : RSSItem datetime)
    (ty : value)
    (Hty : Py.getitem post "type" = Ok ty)
    (Hrun : post2rss post digest pic extra_types w = (Ok (Some item), w')) :
  guid item = link item /\
  (Py.eq_str ty "answer" = true ->
     exists q qtitle qid id t_c a name,
       Py.getitem post "question" = Ok q /\ Py.getitem q "title" = Ok qtitle /\
       Py.getitem q "id" = Ok qid /\ Py.getitem post "id" = Ok id /\
       Py.getitem post "created_time" = Ok t_c /\
       Py.getitem post "author" = Ok a /\ Py.getitem a "name" = Ok name /\
       title item = replace ("[回答] " ++ py_str qtitle) backspace "" /\
       link item = "https://www.zhihu.com/question/" ++ py_str qid ++
                   "/answer/" ++ py_str id /\
       utcfromtimestamp t_c = Ok (pubDate item) /\
       author item = name) /\
  (Py.eq_str ty "answer" = false -> Py.eq_str ty "article" = true ->
     exists t id t_c a name,
       Py.getitem post "title" = Ok t /\ Py.getitem post "id" = Ok id /\
       Py.getitem post "created" = Ok t_c /\
       Py.getitem post "author" = Ok a /\ Py.getitem a "name" = Ok name /\
       title item = replace ("[文章] " ++ py_str t) backspace "" /\
       link item = "https://zhuanlan.zhihu.com/p/" ++ py_str id /\
       utcfromtimestamp t_c = Ok (pubDate item) /\
       author item = name) /\
  (Py.eq_str ty "answer" = false -> Py.eq_str ty "article" = false ->
     in_extra "question" extra_types = true /\ Py.eq_str ty "question" = true /\
     exists t id t_c,
       Py.getitem post "title" = Ok t /\ Py.getitem post "id" = Ok id /\
       Py.getitem post "created" = Ok t_c /\
       title item = replace ("[问题] " ++ py_str t) backspace "" /\
       link item = "https://www.zhihu.com/question/" ++ py_str id /\
       utcfromtimestamp t_c = Ok (pubDate item) /\
       author item = VNone).
Proof.
  split.
  { apply post2rss_Some in Hrun.
    destruct Hrun as (_ & t & url & t_c & a & Hitem).
    apply post2rss_item_fields in Hitem.
    destruct Hitem as (_ & Hl & Hg & _). congruence. }
  unfold post2rss in Hrun.
  rewrite (bind_run _ _ w ty w (f_equal (fun r => (r, w)) Hty)) in Hrun.
  destruct (Py.eq_str ty "answer").
  { split; [| split; discriminate]. intros _.
    run_inv Hrun. repeat run_inv Hrun.
    apply post2rss_item_fields in Hrun.
    destruct Hrun as (Ht & Hl & _ & Ha & Hd & _).
    do 7 eexists. repeat match goal with |- _ /\ _ => split end; eauto. }
  split; [discriminate |].
  destruct (Py.eq_str ty "article").
  { split; [| discriminate]. intros _ _.
    run_inv Hrun. repeat run_inv Hrun.
    apply post2rss_item_fields in Hrun.
    destruct Hrun as (Ht & Hl & _ & Ha & Hd & _).
    do 5 eexists. repeat match goal with |- _ /\ _ => split end; eauto. }
  split; [discriminate |]. intros _ _.
  destruct (in_extra "question" extra_types && Py.eq_str ty "question") eqn:Hq.
  { apply andb_true_iff in Hq. destruct Hq as (Hq1 & Hq2).
    split; [exact Hq1 |]. split; [exact Hq2 |].
    run_inv Hrun. repeat run_inv Hrun.
    apply post2rss_item_fields in Hrun.
    destruct Hrun as (Ht & Hl & _ & Ha & Hd & _).
    do 3 eexists. repeat match goal with |- _ /\ _ => split end; eauto. }
  destruct (Py.in_strs ty ["roundtable"; "live"; "column"]).
  { run_inv Hrun. discriminate Hrun. }
  run_inv Hrun. run_inv Hrun. discriminate Hrun.
Qed.

(** X6: a [pic] argument that is false as a condition (absent, or the
    empty string) is no proxy at all: [post2rss] does with it what it
    does with [None] (line 234). *)
Theorem post2rss_without_proxy (post : value) (digest : bool) (pic : value)
    (extra_types : extra_types_arg) (w : World)
    (Hpic : Py.truthy pic = false) :
  post2rss post digest pic extra_types w = post2rss post digest VNone extra_types w.
Proof.
  assert (Hrender : forall content, render content pic = render content VNone).
  { intros content. unfold render. rewrite Hpic. reflexivity. }
  assert (Hitem : forall t url t_c a,
            post2rss_item post digest pic t url t_c a =
            post2rss_item post digest VNone t url t_c a).
  { intros t url t_c a. unfold post2rss_item.
    apply rbind_ext. intros [| | | content | |]; try reflexivity.
    rewrite Hrender. reflexivity. }
  unfold post2rss. apply bind_ext. intros ty w1.
  destruct (Py.eq_str ty "answer");
    [unfold lift; f_equal; do 7 (apply rbind_ext; intros); apply Hitem |].
  destruct (Py.eq_str ty "article");
    [unfold lift; f_equal; do 5 (apply rbind_ext; intros); apply Hitem |].
  destruct (in_extra "question" extra_types && Py.eq_str ty "question");
    [unfold lift; f_equal; do 3 (apply rbind_ext; intros); apply Hitem |].
  reflexivity.
Qed.

(** X7: what [post2rss] raises on an item it cannot read: [TypeError]
    for a post that is not a dict, [KeyError('type')] for a dict without
    a kind, and [AttributeError] when the selected body is not a string
    (a null excerpt, say), whatever the other fields are. *)
Theorem post2rss_unreadable_item (post : value) (digest : bool) (pic : value)
    (extra_types : extra_types_arg) (w : World) :
  ((forall d, post <> VDict d) ->
     post2rss post digest pic extra_types w = (Err TypeError, w)) /\
  (forall d, post = VDict d -> Py.has_key post "type" = false ->
     post2rss post digest pic extra_types w = (Err (KeyError "type"), w)) /\
  (forall body t url t_c a,
     post_content post digest = Ok body -> (forall s, body <> VStr s) ->
     post2rss_item post digest pic t url t_c a = Err AttributeError).
Proof.
  split; [| split].
  - intros Hnot. unfold post2rss, bind, lift.
    destruct post; try reflexivity. exfalso. apply (Hnot d). reflexivity.
  - intros d -> Hkey. unfold post2rss, bind, lift. simpl in *.
    destruct (Py.lookup "type" d); [discriminate Hkey | reflexivity].
  - intros body t url t_c a Hbody Hnot. unfold post2rss_item. rewrite Hbody.
    simpl. destruct body; try reflexivity. exfalso. apply (Hnot s). reflexivity.
Qed.

End MoreNormaliser.

Module NormaliserFixture.

(** An answer whose question title and body carry a stray backspace. *)
Definition smudged_answer : value :=
  VDict [("type", VStr "answer"); ("id", VInt 3);
         ("question", VDict [("id", VInt 7); ("title", VStr ("a" ++ backspace ++ "b"))]);
         ("created_time", VInt 1540000000); ("author", VDict [("name", VStr "u")]);
         ("excerpt", VStr "e"); ("content", VStr ("<p>c" ++ backspace ++ "</p>"))].

(** An article whose excerpt is null. *)
Definition null_excerpt : value :=
  VDict [("type", VStr "article"); ("id", VInt 5); ("title", VStr "t");
         ("created", VInt 1540000000); ("author", VDict [("name", VStr "u")]);
         ("excerpt", VNone)].

End NormaliserFixture.

Lemma post2rss_strips_backspace_witness :
  exists item,
    post2rss (E := BodyFixture.E) NormaliserFixture.smudged_answer false VNone
      (ETuple []) Fixture.w0 = (Ok (Some item), Fixture.w0) /\
    contains backspace (title item) = false /\
    contains backspace (description item) = false.
Proof.
  eexists. split.
  - vm_compute. reflexivity.
  - apply (post2rss_strips_backspace (E := BodyFixture.E)
             NormaliserFixture.smudged_answer false VNone (ETuple [])
             Fixture.w0 Fixture.w0 _ eq_refl).
Defined.

Lemma post2rss_effects_witness :
  snd (post2rss (E := BodyFixture.E) NormaliserFixture.null_excerpt true VNone
         (ETuple []) Fixture.w0) = Fixture.w0.
Proof.
  apply (proj1 (proj2 (proj2 (post2rss_effects (E := BodyFixture.E)
           NormaliserFixture.null_excerpt true VNone (ETuple []) Fixture.w0)))
           AttributeError).
  reflexivity.
Defined.

Lemma post2rss_entry_of_kind_witness :
  exists item,
    post2rss (E := BodyFixture.E) (Fixture.answer 3 "<p>c</p>") false VNone
      (ETuple []) Fixture.w0 = (Ok (Some item), Fixture.w0) /\
    guid item = link item.
Proof.
  eexists. split.
  - vm_compute. reflexivity.
  - apply (proj1 (post2rss_entry_of_kind (E := BodyFixture.E)
             (Fixture.answer 3 "<p>c</p>") false VNone (ETuple [])
             Fixture.w0 Fixture.w0 _ (VStr "answer") eq_refl eq_refl)).
Defined.

Lemma post2rss_without_proxy_witness :
  post2rss (E := BodyFixture.E) (Fixture.answer 3 "<p>c</p>") false (VStr "")
    (ETuple []) Fixture.w0 =
  post2rss (E := BodyFixture.E) (Fixture.answer 3 "<p>c</p>") false VNone
    (ETuple []) Fixture.w0.
Proof.
  apply (post2rss_without_proxy (E := BodyFixture.E)). reflexivity.
Defined.

Lemma post2rss_unreadable_item_witness :
  post2rss (E := BodyFixture.E) (VStr "not a post") false VNone (ETuple [])
    Fixture.w0 = (Err TypeError, Fixture.w0) /\
  post2rss (E := BodyFixture.E) (VDict [("id", VInt 1)]) false VNone (ETuple [])
    Fixture.w0 = (Err (KeyError "type"), Fixture.w0) /\
  post2rss_item (E := BodyFixture.E) NormaliserFixture.null_excerpt true VNone
    "t" "u" (VInt 0) VNone = Err AttributeError.
Proof.
  split; [| split].
  - apply (proj1 (post2rss_unreadable_item (E := BodyFixture.E)
             (VStr "not a post") false VNone (ETuple []) Fixture.w0)).
    discriminate.
  - apply (proj1 (proj2 (post2rss_unreadable_item (E := BodyFixture.E)
             (VDict [("id", VInt 1)]) false VNone (ETuple []) Fixture.w0))
             [("id", VInt 1)]); reflexivity.
  - apply (proj2 (proj2 (post2rss_unreadable_item (E := BodyFixture.E)
             NormaliserFixture.null_excerpt true VNone (ETuple []) Fixture.w0))
             VNone); [reflexivity | discriminate].
Defined.

(* ===================================================================== *)
(** ** Further properties: the pages and the requests of a walk *)
(* ===================================================================== *)

(** X8: the comprehension of a user page succeeds exactly when every
    element has a [verb] and every element whose verb is accepted has a
    [target], and then yields those targets in order: an element that is
    filtered out needs no target, while one without a verb raises even
    though it could not have been kept.  The comprehension of a topic
    page succeeds exactly when every element has a [target]. *)
Theorem page_comprehensions (xs ts : list value) :
  (accepted_targets xs = Ok ts <->
   Forall (fun x => exists verb, Py.getitem x "verb" = Ok verb) xs /\
   Forall2 (fun x t => Py.getitem x "target" = Ok t) (filter verb_accepted xs) ts) /\
  (all_targets xs = Ok ts <->
   Forall2 (fun x t => Py.getitem x "target" = Ok t) xs ts).
Proof.
  split; split.
  - revert ts. induction xs as [| x xs IH]; intros ts H.
    + cbn [accepted_targets] in H. inversion H. split; constructor.
    + pose proof (accepted_targets_filter _ _ H) as Hf. split; [| exact Hf].
      cbn [accepted_targets] in H. run_inv H.
      constructor; [eauto |].
      destruct (Py.in_strs a ACCEPT_VERBS).
      * run_inv H. run_inv H. apply (IH a1). exact Hval1.
      * apply (IH ts). exact H.
  - revert ts. induction xs as [| x xs IH]; intros ts [Hv Hf].
    + inversion Hf. reflexivity.
    + inversion Hv as [| ? ? (verb & Hverb) Hv']; subst.
      cbn [accepted_targets]. rewrite Hverb. cbn [rbind].
      cbn [filter] in Hf. unfold verb_accepted at 1 in Hf. rewrite Hverb in Hf.
      destruct (Py.in_strs verb ACCEPT_VERBS).
      * inversion Hf as [| ? t ? ts' Ht Hf']; subst.
        rewrite Ht. cbn [rbind]. rewrite (IH ts' (conj Hv' Hf')). reflexivity.
      * apply IH. split; assumption.
  - revert ts. induction xs as [| x xs IH]; intros ts H;
      cbn [all_targets] in H.
    + inversion H. constructor.
    + run_inv H. run_inv H. inversion H; subst. constructor; auto.
  - revert ts. induction xs as [| x xs IH]; intros ts Hf.
    + inversion Hf. reflexivity.
    + inversion Hf as [| ? t ? ts' Ht Hf']; subst.
      cbn [all_targets]. rewrite Ht. cbn [rbind].
      rewrite (IH ts' Hf'). reflexivity.
Qed.

Lemma page_comprehensions_witness :
  accepted_targets
    [Fixture.activity "ANSWER_CREATE" (VInt 1);
     VDict [("verb", VStr "MEMBER_FOLLOW_QUESTION")]] = Ok [VInt 1].
Proof.
  apply (proj2 (proj1 (page_comprehensions
    [Fixture.activity "ANSWER_CREATE" (VInt 1);
     VDict [("verb", VStr "MEMBER_FOLLOW_QUESTION")]] [VInt 1]))).
  split.
  - repeat constructor; eexists; reflexivity.
  - repeat constructor.
Defined.

(** The headers [get_json] sends and the request it makes for [url]. *)
Definition api_headers : list (string * string) :=
  [("User-Agent", user_agent);
   ("Authorization", "oauth c3cef7c66a1843f8b3a9e6a1e3160e20");
   ("x-api-version", "3.0.40");
   ("x-udid", "AMAiMrPqqQ2PTnOxAr5M71LCh-dIQ8kkYvw=")].

Definition api_request {E : Env} (url : value) : Request :=
  mkRequest (urljoin baseurl url) api_headers.

(** The path of the first request of a feed (line 30 and lines 46-50). *)
Definition stream_path (s : stream) : string :=
  match s with
  | UserStream name => "members/" ++ name ++ "/activities"
  | TopicStream id sort =>
      if Py.eq_str sort "hot" then "topics/" ++ id ++ "/feeds/top_activity"
      else if Py.eq_str sort "newest" then "topics/" ++ id ++ "/feeds/timeline_activity"
      else ""
  end.

Lemma https_next_Ok next url :
  https_next next = Ok url ->
  exists u, url = VStr u /\ startswith u "http://" = false.
Proof.
  intros H. destruct next as [| | | u | |]; try discriminate H.
  unfold https_next in H. destruct (startswith u "http://") eqn:Hu;
    inversion H; subst; clear H; eexists; split; try reflexivity.
  exact Hu.
Qed.

Section Requests.

Context {E : Env}.

(** Whatever comes of it, [get_json] makes one exchange: the request for
    [url] with the API headers and what the upstream answered. *)
Lemma get_json_exchange url w :
  exchanges (snd (ZhihuAPI.get_json url w)) =
    (exchanges w ++
     [(api_request url, upstream (List.length (exchanges w)) (api_request url))])%list /\
  warnings (snd (ZhihuAPI.get_json url w)) = warnings w.
Proof.
  unfold ZhihuAPI.get_json, bind, fetch_zhihu, lift, api_request, api_headers.
  destruct (upstream _ _) as [body |]; [| split; reflexivity].
  destruct (decode_utf8 body) as [text |]; [| split; reflexivity].
  split; reflexivity.
Qed.

(** The requests of a walk, whatever its outcome: at most as many as the
    page budget leaves, each to a link the page before it gave. *)
Lemma walk_requests posts_of next_of fuel : forall posts page data w r w',
  (page <= 3)%nat ->
  walk posts_of next_of fuel posts page data w = (r, w') ->
  exists new,
    exchanges w' = (exchanges w ++ new)%list /\
    warnings w' = warnings w /\
    (List.length new <= 3 - page)%nat /\
    Forall (fun x => exists next url,
              next_of next = Ok url /\ fst x = api_request url) new.
Proof.
  assert (Hnone : forall (r r' : result (option LoopState)) w w' page,
    (r, w) = (r', w') ->
    exists new,
      exchanges w' = (exchanges w ++ new)%list /\
      warnings w' = warnings w /\
      (List.length new <= 3 - page)%nat /\
      Forall (fun x => exists next url,
                next_of next = Ok url /\ fst x = api_request url) new).
  { intros r r' w w' page H. inversion H; subst. exists [].
    rewrite app_nil_r. repeat split; [cbn [List.length]; lia | constructor]. }
  induction fuel as [| fuel IH]; intros posts page data w r w' Hpage H;
    cbn [walk] in H;
    destruct ((List.length posts <? 20)%nat && (page <? 3)%nat) eqn:Hcond;
    try (apply (Hnone _ _ _ _ _ H)).
  apply andb_true_iff in Hcond. destruct Hcond as [_ Hlt].
  apply Nat.ltb_lt in Hlt.
  unfold bind at 1 in H. unfold lift at 1 in H.
  destruct (Py.getitem data "paging") as [paging |]; [| apply (Hnone _ _ _ _ _ H)].
  unfold bind at 1 in H. unfold lift at 1 in H.
  destruct (Py.getitem paging "is_end") as [flag |]; [| apply (Hnone _ _ _ _ _ H)].
  destruct (Py.truthy flag); [apply (Hnone _ _ _ _ _ H) |].
  unfold bind at 1 in H. unfold lift at 1 in H.
  destruct (Py.getitem paging "next") as [next |]; [| apply (Hnone _ _ _ _ _ H)].
  unfold bind at 1 in H. unfold lift at 1 in H.
  destruct (next_of next) as [url |] eqn:Hurl; [| apply (Hnone _ _ _ _ _ H)].
  unfold bind at 1 in H.
  destruct (get_json_exchange url w) as (Hex & Hwarn).
  destruct (ZhihuAPI.get_json url w) as [[data' |] w1]; simpl in Hex, Hwarn.
  - unfold bind at 1 in H. unfold lift at 1 in H.
    destruct (posts_of data') as [more |].
    + assert (Hp : (page + 1 <= 3)%nat) by lia.
      destruct (IH _ _ _ _ _ _ Hp H) as (new & Hex' & Hwarn' & Hlen & Hall).
      eexists (_ :: new). rewrite Hex', Hex, <- app_assoc. cbn [app].
      repeat split; [congruence | cbn [List.length]; lia |].
      constructor; [eauto | exact Hall].
    + inversion H; subst. eexists [_]. rewrite Hex.
      repeat split; [exact Hwarn | cbn [List.length]; lia |].
      constructor; [eauto | constructor].
  - inversion H; subst. eexists [_]. rewrite Hex.
    repeat split; [exact Hwarn | cbn [List.length]; lia |].
    constructor; [eauto | constructor].
Qed.

(** Whatever comes of it, the first request of a feed makes one
    exchange, for the feed's path and the fixed query. *)
Lemma stream_first_page_exchange s w r w1 :
  stream_first_page s w = (r, w1) ->
  let n := List.length (exchanges w) in
  let req := api_request (VStr (stream_path s ++ "?" ++ query_string (clock n))) in
  exchanges w1 = (exchanges w ++ [(req, upstream n req)])%list /\
  warnings w1 = warnings w.
Proof.
  intros H. cbv zeta.
  assert (Hget : ZhihuAPI.get_json
            (VStr (stream_path s ++ "?" ++
                   query_string (clock (List.length (exchanges w))))) w = (r, w1)).
  { rewrite <- H. destruct s as [name | id sort]; reflexivity. }
  pose proof (get_json_exchange
    (VStr (stream_path s ++ "?" ++
           query_string (clock (List.length (exchanges w))))) w) as Hex.
  rewrite Hget in Hex. exact Hex.
Qed.

(** The exchanges of an aggregation, whatever its outcome. *)
Lemma stream_posts_exchanges s w :
  let n := List.length (exchanges w) in
  let req := api_request (VStr (stream_path s ++ "?" ++ query_string (clock n))) in
  exists rest,
    exchanges (snd (stream_posts s w)) =
      (exchanges w ++ (req, upstream n req) :: rest)%list /\
    warnings (snd (stream_posts s w)) = warnings w /\
    (List.length rest <= 3)%nat /\
    Forall (fun x => exists next url,
              stream_next s next = Ok url /\ fst x = api_request url) rest.
Proof.
  cbv zeta. destruct (stream_posts s w) as [r w'] eqn:H. cbn [snd].
  rewrite stream_posts_walk in H. unfold bind at 1 in H.
  destruct (stream_first_page s w) as [r1 w1] eqn:Hfirst.
  destruct (stream_first_page_exchange s w r1 w1 Hfirst) as (Hex & Hwarn).
  destruct r1 as [data |];
    [| inversion H; subst; exists [];
       repeat split; [exact Hex | exact Hwarn | cbn [List.length]; lia | constructor]].
  unfold bind at 1 in H. unfold lift at 1 in H.
  destruct (stream_page_posts s data) as [posts |];
    [| inversion H; subst; exists [];
       repeat split; [exact Hex | exact Hwarn | cbn [List.length]; lia | constructor]].
  destruct (walk_requests _ _ _ _ _ _ _ _ _ (Nat.le_0_l 3) H)
    as (new & Hex' & Hwarn' & Hlen & Hall).
  exists new. rewrite Hex', Hex, <- app_assoc. cbn [app].
  repeat split; [congruence | lia | exact Hall].
Qed.

(** X9: an aggregation, whether it returns or raises, makes between one
    and four requests and logs nothing.  The first goes to the feed's
    path ([members/<name>/activities] for a user, [top_activity] or
    [timeline_activity] for a topic sorted by [hot] or [newest]) with
    the query [desktop=True&after_id=<now>&limit=7]; every request
    carries the API headers. *)
Theorem stream_requests (s : stream) (w : World) :
  let n := List.length (exchanges w) in
  let req := api_request (VStr (stream_path s ++ "?" ++ query_string (clock n))) in
  exists rest,
    exchanges (snd (stream_posts s w)) =
      (exchanges w ++ (req, upstream n req) :: rest)%list /\
    (List.length rest <= 3)%nat /\
    Forall (fun x => req_headers (fst x) = api_headers) rest /\
    warnings (snd (stream_posts s w)) = warnings w.
Proof.
  cbv zeta.
  destruct (stream_posts_exchanges s w) as (rest & Hex & Hwarn & Hlen & Hall).
  exists rest. repeat split; [exact Hex | exact Hlen | | exact Hwarn].
  apply (Forall_impl _ (P := fun x => exists next url,
            stream_next s next = Ok url /\ fst x = api_request url)); [| exact Hall].
  intros x (next & url & _ & ->). reflexivity.
Qed.

(** X10: after its first request a topic aggregation never follows a
    link over plain http: each later request is for a string that does
    not start with [http://]. *)
Theorem topic_requests_not_plain_http (id : string) (sort : value) (w : World) :
  exists first rest,
    exchanges (snd (stream_posts (TopicStream id sort) w)) =
      (exchanges w ++ first :: rest)%list /\
    Forall (fun x => exists u,
              fst x = api_request (VStr u) /\ startswith u "http://" = false) rest.
Proof.
  destruct (stream_posts_exchanges (TopicStream id sort) w)
    as (rest & Hex & _ & _ & Hall).
  eexists _, rest. split; [exact Hex |].
  apply (Forall_impl _ (P := fun x => exists next url,
            stream_next (TopicStream id sort) next = Ok url /\
            fst x = api_request url)); [| exact Hall].
  intros x (next & url & Hnext & ->). cbn [stream_next] in Hnext.
  destruct (https_next_Ok _ _ Hnext) as (u & -> & Hu). eauto.
Qed.

(** X11: when the first page already yields 20 posts, or says it is the
    last, the aggregation returns that page's posts after this single
    request. *)
Theorem first_page_suffices (s : stream) (w w1 : World) (data : value)
    (posts : list value)
    (Hfirst : stream_first_page s w = (Ok data, w1))
    (Hposts : stream_page_posts s data = Ok posts)
    (Hstop : (20 <= List.length posts)%nat \/ is_end data) :
  stream_posts s w = (Ok (Some (posts, 0%nat, data)), w1).
Proof.
  rewrite stream_posts_walk.
  rewrite (bind_run _ _ _ _ _ Hfirst).
  rewrite (bind_run _ _ w1 posts w1 (f_equal (fun r => (r, w1)) Hposts)).
  cbn [walk].
  destruct ((List.length posts <? 20)%nat && (0 <? 3)%nat) eqn:Hcond;
    [| reflexivity].
  apply andb_true_iff in Hcond. destruct Hcond as [Hlen _].
  apply Nat.ltb_lt in Hlen.
  destruct Hstop as [Hmany | (paging & flag & Hp & Hf & Ht)]; [lia |].
  unfold bind at 1. unfold lift at 1. rewrite Hp.
  unfold bind at 1. unfold lift at 1. rewrite Hf, Ht. reflexivity.
Qed.

End Requests.

Module LastPageFixture.

(** A user whose first page is the last. *)
Definition E : Env := Fixture.env (fun _ => Ok "page 1") StreamFixture.pages.

Definition first_run : result value * World :=
  Eval vm_compute in stream_first_page (E := E) (UserStream "alice") Fixture.w0.

Definition data : value :=
  match fst first_run with
  | Ok d => d
  | Err _ => VNone
  end.

End LastPageFixture.

Lemma first_page_suffices_witness :
  stream_posts (E := LastPageFixture.E) (UserStream "alice") Fixture.w0 =
  (Ok (Some ([Fixture.answer 3 "<p>c</p>"], 0%nat, LastPageFixture.data)),
   snd LastPageFixture.first_run).
Proof.
  apply (first_page_suffices (E := LastPageFixture.E)).
  - vm_compute. reflexivity.
  - reflexivity.
  - right. exists (VDict [("is_end", VBool true); ("next", VStr "")]), (VBool true).
    repeat split.
Defined.

(* ===================================================================== *)
(** ** Further properties: the scraped pages and the handlers *)
(* ===================================================================== *)

(** The request [topic_info] issues. *)
Definition topic_request {E : Env} (id : string) : Request :=
  mkRequest (urljoin "https://www.zhihu.com/topic/" (VStr id))
            [("User-Agent", user_agent)].

Section Scraping.

Context {E : Env}.

(** Whatever comes of it, [topic_info] makes one exchange, the request
    for the topic page, and logs nothing. *)
Lemma topic_info_exchange id w r w1 :
  ZhihuAPI.topic_info id w = (r, w1) ->
  w1 = mkWorld (exchanges w ++
                [(topic_request id,
                  upstream (List.length (exchanges w)) (topic_request id))])%list
               (warnings w).
Proof.
  unfold ZhihuAPI.topic_info, bind, fetch_zhihu, lift, ret, raise.
  fold (topic_request id).
  destruct (upstream _ _) as [body |]; [| intros H; inversion H; reflexivity].
  destruct (String.eqb body ""); [intros H; inversion H; reflexivity |].
  destruct (decode_utf8 body) as [text |]; [| intros H; inversion H; reflexivity].
  destruct (fromstring text) as [doc |]; [| intros H; inversion H; reflexivity].
  destruct (xpath doc _) as [| m ms].
  - destruct (xpath doc _) as [| c cs]; [intros H; inversion H; reflexivity |].
    destruct (first _); [| intros H; inversion H; reflexivity].
    destruct (first _); intros H; inversion H; reflexivity.
  - destruct (first _); [| intros H; inversion H; reflexivity].
    destruct (first _); intros H; inversion H; reflexivity.
Qed.

(** X12: the handlers answer a name or an id that ends with a space by
    [HTTPError(404)] without a single request, and the guard fires for
    no other name. *)
Theorem trailing_space_is_not_found (self : handler) (w : World) :
  (forall s, ZhihuStream_get self (s ++ " ") w = (Err (HTTPError 404), w)) /\
  (forall s, ZhihuTopic_get self (s ++ " ") w = (Err (HTTPError 404), w)) /\
  (forall name, endswith name " " = true -> exists s, name = s ++ " ").
Proof.
  split; [| split].
  - intros s. unfold ZhihuStream_get. rewrite endswith_app. reflexivity.
  - intros s. unfold ZhihuTopic_get. rewrite endswith_app. reflexivity.
  - intros name. apply endswith_split.
Qed.

(** X13: when the topic page of a topic-stream request comes back with
    an empty body, the request fails with [HTTPError(404)] and the
    activity feed is never asked for. *)
Theorem empty_topic_page_is_not_found (self : handler) (id : string) (w : World)
    (Hempty : upstream (List.length (exchanges w)) (topic_request id) = Ok "") :
  fst (ZhihuTopic_get self id w) = Err (HTTPError 404) /\
  (endswith id " " = false ->
   snd (ZhihuTopic_get self id w) =
   mkWorld (exchanges w ++ [(topic_request id, Ok "")])%list (warnings w)).
Proof.
  unfold ZhihuTopic_get. destruct (endswith id " ").
  - split; [reflexivity | discriminate].
  - assert (Hinfo : ZhihuAPI.topic_info id w =
              (Err (HTTPError 404),
               mkWorld (exchanges w ++ [(topic_request id, Ok "")])%list (warnings w))).
    { unfold ZhihuAPI.topic_info, bind, fetch_zhihu. fold (topic_request id).
      rewrite Hempty. reflexivity. }
    unfold topic2rss. rewrite (bind_fail _ _ _ _ _ Hinfo).
    split; reflexivity.
Qed.

(** X14: [topic2rss] called with a [sort] that is neither [hot] nor
    [newest] never returns a feed: it fetches the topic page, then
    raises [UnboundLocalError] for [title] (or what the topic page
    raised) without asking for any activity. *)
Theorem topic2rss_unknown_sort (id : string) (sort pic : value) (w : World)
    (Hhot : sort <> VStr "hot") (Hnew : sort <> VStr "newest") :
  (forall xml, fst (topic2rss id sort pic w) <> Ok xml) /\
  (forall info w1, ZhihuAPI.topic_info id w = (Ok info, w1) ->
     topic2rss id sort pic w = (Err (UnboundLocalError "title"), w1)) /\
  snd (topic2rss id sort pic w) =
    mkWorld (exchanges w ++
             [(topic_request id,
               upstream (List.length (exchanges w)) (topic_request id))])%list
            (warnings w).
Proof.
  apply eq_str_false in Hhot. apply eq_str_false in Hnew.
  assert (Hrun : forall info w1, ZhihuAPI.topic_info id w = (Ok info, w1) ->
            topic2rss id sort pic w = (Err (UnboundLocalError "title"), w1)).
  { intros info w1 H. unfold topic2rss. rewrite (bind_run _ _ _ _ _ H).
    rewrite Hhot, Hnew. reflexivity. }
  destruct (ZhihuAPI.topic_info id w) as [[info | e] w1] eqn:Hinfo.
  - rewrite (Hrun info w1 eq_refl). cbn [fst snd].
    split; [discriminate |]. split.
    + intros info' w1' H. inversion H; subst. reflexivity.
    + apply (topic_info_exchange _ _ _ _ Hinfo).
  - unfold topic2rss. rewrite (bind_fail _ _ _ _ _ Hinfo). cbn [fst snd].
    split; [discriminate |]. split; [discriminate |].
    apply (topic_info_exchange _ _ _ _ Hinfo).
Qed.

(** X15: the layouts of a topic page (lines 116-133).  For a page that
    is not empty and parses: without a [TopicMetaCard] and without a
    [TopicCard] marker, the topic is named by its id and described by
    the fixed text, and nothing is raised; a [TopicMetaCard] marker
    decides for its layout even when a [TopicCard] marker is there as
    well, and the layout's title or description missing raises
    [IndexError]. *)
Theorem topic_info_layouts (id : string) (w : World) (body text : string)
    (doc : html)
    (Hbody : upstream (List.length (exchanges w)) (topic_request id) = Ok body)
    (Hfull : body <> "")
    (Hdecode : decode_utf8 body = Ok text)
    (Hparse : fromstring text = Ok doc) :
  let w1 := mkWorld (exchanges w ++ [(topic_request id, Ok body)])%list (warnings w) in
  let marked class :=
    xpath doc ("//*[contains(@class, " ++ dquote ++ class ++ dquote ++ ")]") in
  let url := urljoin "https://www.zhihu.com/topic/" (VStr id) in
  (marked "TopicMetaCard" = [] -> marked "TopicCard" = [] ->
     ZhihuAPI.topic_info id w =
     (Ok (ZhihuAPI.mkTopicInfo id "未找到话题描述" url), w1)) /\
  (marked "TopicMetaCard" <> [] ->
     ZhihuAPI.topic_info id w =
     ((n <~ first (xpath doc ("//div[@class=" ++ dquote ++ "TopicMetaCard-title" ++
                              dquote ++ "]")) ;;
       d <~ first (xpath doc ("//div[contains(@class, " ++ dquote ++
                              "TopicMetaCard-description" ++ dquote ++ ")]")) ;;
       Ok (ZhihuAPI.mkTopicInfo (text_content n) (text_content d) url))%result, w1)) /\
  (marked "TopicMetaCard" = [] -> marked "TopicCard" <> [] ->
     ZhihuAPI.topic_info id w =
     ((n <~ first (xpath doc ("//h1[@class=" ++ dquote ++ "TopicCard-titleText" ++
                              dquote ++ "]")) ;;
       d <~ first (xpath doc ("//div[@class=" ++ dquote ++ "TopicCard-ztext" ++
                              dquote ++ "]")) ;;
       Ok (ZhihuAPI.mkTopicInfo (text_content n) (text_content d) url))%result, w1)).
Proof.
  cbv zeta. apply String.eqb_neq in Hfull.
  unfold ZhihuAPI.topic_info, bind, fetch_zhihu, lift, ret.
  fold (topic_request id). rewrite Hbody, Hfull, Hdecode, Hparse.
  split; [| split].
  - intros -> ->. reflexivity.
  - intros Hm.
    destruct (xpath doc _) as [| m ms]; [contradiction |].
    destruct (first _) as [n |]; [| reflexivity].
    destruct (first _) as [d |]; reflexivity.
  - intros -> Hc.
    destruct (xpath doc _) as [| c cs]; [contradiction |].
    destruct (first _) as [n |]; [| reflexivity].
    destruct (first _) as [d |]; reflexivity.
Qed.

(** X16: the profile card (lines 86-101).  For a card that is not empty
    and parses: without a [name] node, or with one but without an
    [avatar-link] node, [card] raises [IndexError]; with both, it
    returns the name, the profile link resolved against the site, and
    as headline the text of the first [tagline] node, or the empty
    string when there is none. *)
Theorem card_fields (name : string) (w : World) (body text : string) (doc : html)
    (Hbody : upstream (List.length (exchanges w)) (ZhihuAPI.card_request name)
             = Ok body)
    (Hfull : body <> "")
    (Hdecode : decode_utf8 body = Ok text)
    (Hparse : fromstring text = Ok doc) :
  let w1 := mkWorld (exchanges w ++ [(ZhihuAPI.card_request name, Ok body)])%list
                    (warnings w) in
  let names := xpath doc ("//span[@class=" ++ dquote ++ "name" ++ dquote ++ "]") in
  let links := xpath doc ("//a[@class=" ++ dquote ++ "avatar-link" ++ dquote ++ "]") in
  let taglines := xpath doc ("//div[@class=" ++ dquote ++ "tagline" ++ dquote ++ "]") in
  (names = [] -> ZhihuAPI.card name w = (Err IndexError, w1)) /\
  (names <> [] -> links = [] -> ZhihuAPI.card name w = (Err IndexError, w1)) /\
  (forall n ns a rest, names = n :: ns -> links = a :: rest ->
     ZhihuAPI.card name w =
     (Ok (ZhihuAPI.mkCard (text_content n)
            match taglines with
            | t :: _ => text_content t
            | [] => ""
            end
            (urljoin "https://www.zhihu.com/" (attr_get a "href"))), w1)).
Proof.
  cbv zeta. apply String.eqb_neq in Hfull.
  unfold ZhihuAPI.card, bind, fetch_zhihu, lift, ret.
  rewrite Hbody, Hfull, Hdecode, Hparse.
  split; [| split].
  - intros ->. reflexivity.
  - intros Hn ->. destruct (xpath doc _) as [| n ns]; [contradiction | reflexivity].
  - intros n ns a rest -> ->. reflexivity.
Qed.

End Scraping.

Module ScrapeFixture.

(** A page in which no node is ever found. *)
Definition E : Env := {|
  upstream := fun _ _ => Ok "<html></html>";
  clock := fun _ => 1541000000%Z;
  urljoin := fun base v => match v with VStr s => base ++ s | _ => base end;
  quote := fun s => s;
  json_dumps := fun _ => "";
  json_loads := fun _ => Err (Raised "JSONDecodeError");
  decode_utf8 := fun s => Ok s;
  py_repr := fun _ => "";
  html := string;
  fromstring := fun s => Ok s;
  tostring := fun doc => doc;
  xpath := fun _ _ => [];
  text_content := fun doc => doc;
  attr_get := fun _ _ => VNone;
  tidy_content := fun doc => Ok doc;
  proxify_pic := fun doc _ => Ok doc;
  datetime := Z;
  utcfromtimestamp := fun v => match v with VInt n => Ok n | _ => Err TypeError end;
  data2rss := data2rss_spec;
  to_xml := fun rss => String.concat "," (map title (rss_items rss));
  handler := list (string * value);
  get_argument := fun self k default =>
    match Py.lookup k self with Some v => v | None => default end
|}.

End ScrapeFixture.

Lemma trailing_space_is_not_found_witness :
  ZhihuStream_get (E := HandlerFixture.E) [] "lilydjwg " Fixture.w0 =
    (Err (HTTPError 404), Fixture.w0) /\
  exists s, "19551894 " = s ++ " ".
Proof.
  split.
  - apply (proj1 (trailing_space_is_not_found (E := HandlerFixture.E) []
                    Fixture.w0) "lilydjwg").
  - apply (proj2 (proj2 (trailing_space_is_not_found (E := HandlerFixture.E) []
                           Fixture.w0))).
    reflexivity.
Defined.

Lemma empty_topic_page_is_not_found_witness :
  fst (ZhihuTopic_get (E := HandlerFixture.E) [] "19551894" Fixture.w0)
  = Err (HTTPError 404).
Proof.
  apply (proj1 (empty_topic_page_is_not_found (E := HandlerFixture.E) []
                  "19551894" Fixture.w0 eq_refl)).
Defined.

Lemma topic2rss_unknown_sort_witness :
  topic2rss (E := TopicFixture.E) "19551894" (VStr "bogus") VNone Fixture.w0 =
  (Err (UnboundLocalError "title"),
   snd (ZhihuAPI.topic_info (E := TopicFixture.E) "19551894" Fixture.w0)).
Proof.
  eapply (proj1 (proj2 (topic2rss_unknown_sort (E := TopicFixture.E) "19551894"
                          (VStr "bogus") VNone Fixture.w0 _ _))).
  vm_compute. reflexivity.
  Unshelve. all: discriminate.
Defined.

Lemma topic_info_layouts_witness :
  ZhihuAPI.topic_info (E := ScrapeFixture.E) "19551894" Fixture.w0 =
  (Ok (ZhihuAPI.mkTopicInfo "19551894" "未找到话题描述"
         "https://www.zhihu.com/topic/19551894"),
   mkWorld [(topic_request (E := ScrapeFixture.E) "19551894", Ok "<html></html>")] []).
Proof.
  apply (proj1 (topic_info_layouts (E := ScrapeFixture.E) "19551894" Fixture.w0
                  "<html></html>" "<html></html>" "<html></html>"
                  eq_refl ltac:(discriminate) eq_refl eq_refl));
    reflexivity.
Defined.

Lemma card_fields_witness :
  ZhihuAPI.card (E := ScrapeFixture.E) "lilydjwg" Fixture.w0 =
  (Err IndexError,
   mkWorld [(ZhihuAPI.card_request (E := ScrapeFixture.E) "lilydjwg",
             Ok "<html></html>")] []).
Proof.
  apply (proj1 (card_fields (E := ScrapeFixture.E) "lilydjwg" Fixture.w0
                  "<html></html>" "<html></html>" "<html></html>"
                  eq_refl ltac:(discriminate) eq_refl eq_refl));
    reflexivity.
Defined.

(* ===================================================================== *)
(** ** Further properties: failures and frugality of a walk *)
(* ===================================================================== *)

Section WalkOutcomes.

Context {E : Env}.

(** [get_json] returns what its one exchange delivered, be it a page or
    an exception. *)
Lemma get_json_page url w r w1 :
  ZhihuAPI.get_json url w = (r, w1) ->
  exists x, exchanges w1 = (exchanges w ++ [x])%list /\ page_of_exchange x = r.
Proof.
  intros H.
  exists (api_request url, upstream (List.length (exchanges w)) (api_request url)).
  split.
  - pose proof (proj1 (get_json_exchange url w)) as Hex.
    rewrite H in Hex. exact Hex.
  - unfold ZhihuAPI.get_json, bind, fetch_zhihu, lift in H.
    unfold page_of_exchange, api_request, api_headers. cbn [snd].
    destruct (upstream _ _) as [body |]; cbn [rbind];
      [destruct (decode_utf8 body) as [text |]; cbn [rbind] |];
      inversion H; reflexivity.
Qed.

(** An exchange of a walk that delivered no page ended the walk with its
    exception. *)
Lemma walk_failure posts_of next_of fuel : forall posts page data w r w',
  walk posts_of next_of fuel posts page data w = (r, w') ->
  exists new,
    exchanges w' = (exchanges w ++ new)%list /\
    forall x e, In x new -> page_of_exchange x = Err e -> r = Err e.
Proof.
  assert (Hnone : forall (r r' : result (option LoopState)) w w',
    (r, w) = (r', w') ->
    exists new,
      exchanges w' = (exchanges w ++ new)%list /\
      forall x e, In x new -> page_of_exchange x = Err e -> r' = Err e).
  { intros r r' w w' H. inversion H; subst. exists [].
    rewrite app_nil_r. split; [reflexivity | intros x e []]. }
  induction fuel as [| fuel IH]; intros posts page data w r w' H;
    cbn [walk] in H;
    destruct ((List.length posts <? 20)%nat && (page <? 3)%nat);
    try (apply (Hnone _ _ _ _ H)).
  unfold bind at 1 in H. unfold lift at 1 in H.
  destruct (Py.getitem data "paging") as [paging |]; [| apply (Hnone _ _ _ _ H)].
  unfold bind at 1 in H. unfold lift at 1 in H.
  destruct (Py.getitem paging "is_end") as [flag |]; [| apply (Hnone _ _ _ _ H)].
  destruct (Py.truthy flag); [apply (Hnone _ _ _ _ H) |].
  unfold bind at 1 in H. unfold lift at 1 in H.
  destruct (Py.getitem paging "next") as [next |]; [| apply (Hnone _ _ _ _ H)].
  unfold bind at 1 in H. unfold lift at 1 in H.
  destruct (next_of next) as [url |]; [| apply (Hnone _ _ _ _ H)].
  unfold bind at 1 in H.
  destruct (ZhihuAPI.get_json url w) as [rj w1] eqn:Hget.
  destruct (get_json_page _ _ _ _ Hget) as (x & Hex & Hpage).
  destruct rj as [data' | e0].
  - unfold bind at 1 in H. unfold lift at 1 in H.
    destruct (posts_of data') as [more |].
    + destruct (IH _ _ _ _ _ _ H) as (new & Hex' & Hfail).
      exists (x :: new). rewrite Hex', Hex, <- app_assoc. split; [reflexivity |].
      intros y err [<- | Hin] Hy; [congruence | apply (Hfail y err Hin Hy)].
    + inversion H; subst. exists [x]. split; [exact Hex |].
      intros y err [<- | []] Hy. congruence.
  - inversion H; subst. exists [x]. split; [exact Hex |].
    intros y err [<- | []] Hy. congruence.
Qed.

(** X17: all or nothing.  When one exchange of an aggregation delivers
    no page (the transport raised, or the body could not be decoded),
    the aggregation raises that exception: no partial post list is
    returned. *)
Theorem failed_page_fails_aggregation (s : stream) (w : World) :
  exists new,
    exchanges (snd (stream_posts s w)) = (exchanges w ++ new)%list /\
    forall x e, In x new -> page_of_exchange x = Err e ->
      fst (stream_posts s w) = Err e.
Proof.
  destruct (stream_posts s w) as [r w'] eqn:H. cbn [fst snd].
  rewrite stream_posts_walk in H. unfold bind at 1 in H.
  destruct (stream_first_page s w) as [r1 w1] eqn:Hfirst.
  assert (Hx : exists x, exchanges w1 = (exchanges w ++ [x])%list /\
                         page_of_exchange x = r1).
  { destruct s as [name | id sort]; cbn [stream_first_page] in Hfirst;
      [unfold ZhihuAPI.activities in Hfirst | unfold ZhihuAPI.topic in Hfirst];
      unfold bind at 1 in Hfirst; unfold time_time in Hfirst;
      apply (get_json_page _ _ _ _ Hfirst). }
  destruct Hx as (x & Hex & Hpage).
  destruct r1 as [data | e0].
  - unfold bind at 1 in H. unfold lift at 1 in H.
    destruct (stream_page_posts s data) as [posts |].
    + destruct (walk_failure _ _ _ _ _ _ _ _ _ H) as (new & Hex' & Hfail).
      exists (x :: new). rewrite Hex', Hex, <- app_assoc. split; [reflexivity |].
      intros y err [<- | Hin] Hy; [congruence | apply (Hfail y err Hin Hy)].
    + inversion H; subst. exists [x]. split; [exact Hex |].
      intros y err [<- | []] Hy. congruence.
  - inversion H; subst. exists [x]. split; [exact Hex |].
    intros y err [<- | []] Hy. congruence.
Qed.

(** A walk that fetched a page had fewer than 20 posts before the posts
    of the last page it fetched were added. *)
Lemma walk_frugal posts_of next_of fuel : forall posts page data w st w',
  walk posts_of next_of fuel posts page data w = (Ok (Some st), w') ->
  st = (posts, page, data) \/
  exists before chunk,
    fst (fst st) = (before ++ chunk)%list /\
    posts_of (snd st) = Ok chunk /\
    (List.length before < 20)%nat /\
    (page < snd (fst st))%nat.
Proof.
  induction fuel as [| fuel IH]; intros posts page data w st w' H;
    cbn [walk] in H;
    destruct ((List.length posts <? 20)%nat && (page <? 3)%nat) eqn:Hcond;
    try (run_inv H; inversion H; subst; left; reflexivity);
    try (run_inv H; discriminate H).
  apply andb_true_iff in Hcond. destruct Hcond as [Hlen _].
  apply Nat.ltb_lt in Hlen.
  run_inv H. run_inv Hrun. run_inv H. run_inv Hrun0.
  destruct (Py.truthy a0).
  - run_inv H. inversion H; subst. left. reflexivity.
  - run_inv H. run_inv Hrun1. run_inv H. run_inv Hrun2.
    run_inv H. run_inv H. run_inv Hrun4. right.
    destruct (IH _ _ _ _ _ _ H) as [-> | (before & chunk & Hp & Hc & Hb & Hpg)].
    + exists posts, a4. cbn [fst snd]. repeat split; [exact Hrun4 | exact Hlen | lia].
    + exists before, chunk. repeat split; [exact Hp | exact Hc | exact Hb | lia].
Qed.

(** X18: no page is fetched once 20 posts are there.  When an
    aggregation returns after fetching further pages, the posts of the
    last page were added to fewer than 20 posts. *)
Theorem no_fetch_beyond_need (s : stream) (w w' : World) (posts : list value)
    (page : nat) (data : value)
    (Hrun : stream_posts s w = (Ok (Some (posts, page, data)), w'))
    (Hmore : (0 < page)%nat) :
  exists before chunk,
    posts = (before ++ chunk)%list /\
    stream_page_posts s data = Ok chunk /\
    (List.length before < 20)%nat.
Proof.
  rewrite stream_posts_walk in Hrun.
  run_inv Hrun. run_inv Hrun. run_inv Hrun1.
  destruct (walk_frugal _ _ _ _ _ _ _ _ _ Hrun)
    as [Heq | (before & chunk & Hp & Hc & Hb & _)].
  - inversion Heq; subst. lia.
  - exists before, chunk. cbn [fst snd] in *. auto.
Qed.

End WalkOutcomes.

Lemma failed_page_fails_aggregation_witness :
  fst (stream_posts (E := ScrapeFixture.E) (UserStream "alice") Fixture.w0) =
  Err (Raised "JSONDecodeError").
Proof.
  destruct (failed_page_fails_aggregation (E := ScrapeFixture.E)
              (UserStream "alice") Fixture.w0) as (new & Hex & Hfail).
  destruct new as [| x new]; [discriminate Hex |].
  apply (Hfail x); [left; reflexivity |].
  inversion Hex; subst. reflexivity.
Defined.

Lemma no_fetch_beyond_need_witness :
  exists before chunk,
    StreamFixture.posts = (before ++ chunk)%list /\
    stream_page_posts (UserStream "alice") StreamFixture.data = Ok chunk /\
    (List.length before < 20)%nat.
Proof.
  apply (no_fetch_beyond_need (E := StreamFixture.E) (UserStream "alice")
           Fixture.w0 StreamFixture.final StreamFixture.posts StreamFixture.page
           StreamFixture.data).
  - vm_compute. reflexivity.
  - vm_compute. lia.
Defined.
